(** * The PWA service worker (sw.js): cache strategies, lifecycle and
      control channel, embedded as Rocq functions.

    Every asynchronous function of the worker is a function from its
    inputs, the behaviour of the network and the cache storage it starts
    from, to an [Outcome]: how the promise it returns settles, the cache
    storage once every continuation it attached has run, and the effects
    it had on the platform, in program order. *)

From Stdlib Require Import ZArith NArith String Ascii List Bool Lia.
From stdpp Require Import gmap strings list pretty.

Local Set Warnings "-register-all".
Local Open Scope string_scope.
Local Open Scope Z_scope.
Local Open Scope list_scope.

(** ** Strings as the script uses them *)

Module Js.

(** [s.replace(/c/g, d)] for a one-character pattern. *)
Fixpoint replace_all (c d : ascii) (s : string) : string :=
  match s with
  | EmptyString => EmptyString
  | String a rest =>
      String (if Ascii.eqb a c then d else a) (replace_all c d rest)
  end.

(** [s.startsWith(p)] *)
Definition startsWith (s p : string) : bool := String.prefix p s.

(** [s.includes(p)] *)
Definition includes (s p : string) : bool :=
  match String.index 0 p s with
  | Some _ => true
  | None => false
  end.

Definition dquote : ascii := ascii_of_nat 34.
Definition backslash : ascii := ascii_of_nat 92.

(** ** Values that cross the worker's boundary: message data, push
    payloads, notification options, replies. Numbers are the integers
    (see [safe] for those that stand for a number of the language). *)
Inductive Value : Type :=
  | Undefined
  | Null
  | Bool (b : bool)
  | Num (n : Z)
  | Str (s : string)
  | Arr (items : list Value)
  | Obj (fields : list (string * Value)).

(** An error object: its constructor's name and its message. *)
Record Error : Type := mkError { err_name : string; err_message : string }.

Definition TypeError (m : string) : Error := mkError "TypeError" m.
Definition ReferenceError (m : string) : Error := mkError "ReferenceError" m.
Definition SyntaxError (m : string) : Error := mkError "SyntaxError" m.
Definition PlainError (m : string) : Error := mkError "Error" m.

(** Evaluation that may throw. *)
Inductive Eval (A : Type) : Type :=
  | Val (a : A)
  | Throw (e : Error).
Arguments Val {A} a.
Arguments Throw {A} e.

Definition bind {A B : Type} (m : Eval A) (k : A -> Eval B) : Eval B :=
  match m with
  | Val a => k a
  | Throw e => Throw e
  end.

(** ToBoolean: the falsy values are undefined, null, false, 0 and the
    empty string. *)
Definition truthy (v : Value) : bool :=
  match v with
  | Undefined | Null => false
  | Bool b => b
  | Num n => negb (n =? 0)
  | Str s => negb (String.eqb s "")
  | Arr _ | Obj _ => true
  end.

(** [a || b] *)
Definition or_else (a b : Value) : Value := if truthy a then a else b.

Fixpoint assoc (k : string) (fields : list (string * Value)) : Value :=
  match fields with
  | [] => Undefined
  | (k', v) :: rest => if String.eqb k' k then v else assoc k rest
  end.

(** [v.k]: reading a property of undefined or null throws a TypeError;
    a primitive or an array has none of the names the worker reads. *)
Definition get (v : Value) (k : string) : Eval Value :=
  match v with
  | Undefined => Throw (TypeError ("Cannot read properties of undefined (reading '" +:+ k +:+ "')"))
  | Null => Throw (TypeError ("Cannot read properties of null (reading '" +:+ k +:+ "')"))
  | Obj fields => Val (assoc k fields)
  | _ => Val Undefined
  end.

(** *** JSON.stringify *)

Definition hex_digit (n : N) : ascii :=
  ascii_of_N (if (n <? 10)%N then 48 + n else 87 + n)%N.

Definition escape_char (a : ascii) : string :=
  let n := N_of_ascii a in
  if Ascii.eqb a dquote then String backslash (String dquote "")
  else if Ascii.eqb a backslash then String backslash (String backslash "")
  else if (n =? 8)%N then String backslash "b"
  else if (n =? 9)%N then String backslash "t"
  else if (n =? 10)%N then String backslash "n"
  else if (n =? 12)%N then String backslash "f"
  else if (n =? 13)%N then String backslash "r"
  else if (n <? 32)%N then
    String backslash ("u00" +:+ String (hex_digit (n / 16)) (String (hex_digit (n mod 16)) ""))
  else String a "".

Fixpoint escape (s : string) : string :=
  match s with
  | EmptyString => EmptyString
  | String a rest => escape_char a +:+ escape rest
  end.

Definition quote (s : string) : string :=
  String dquote (escape s) +:+ String dquote "".

Fixpoint join (sep : string) (l : list string) : string :=
  match l with
  | [] => ""
  | [x] => x
  | x :: rest => x +:+ sep +:+ join sep rest
  end.

(** [None] is the [undefined] that JSON.stringify returns for undefined;
    an undefined field of an object is left out, an undefined item of an
    array is printed as null. *)
Fixpoint JSON_stringify (v : Value) : option string :=
  match v with
  | Undefined => None
  | Null => Some "null"
  | Bool b => Some (if b then "true" else "false")
  | Num n => Some (pretty n)
  | Str s => Some (quote s)
  | Arr items =>
      let fix go (l : list Value) : list string :=
        match l with
        | [] => []
        | x :: rest =>
            match JSON_stringify x with
            | Some t => t :: go rest
            | None => "null" :: go rest
            end
        end in
      Some ("[" +:+ join "," (go items) +:+ "]")
  | Obj fields =>
      let fix go (l : list (string * Value)) : list string :=
        match l with
        | [] => []
        | (k, x) :: rest =>
            match JSON_stringify x with
            | Some t => (quote k +:+ ":" +:+ t) :: go rest
            | None => go rest
            end
        end in
      Some ("{" +:+ join "," (go fields) +:+ "}")
  end.

(** ToString, as [fetch(url)] and [cache.put(url, ...)] apply it to a
    value that is not a Request. *)
Fixpoint ToString (v : Value) : string :=
  match v with
  | Undefined => "undefined"
  | Null => "null"
  | Bool b => if b then "true" else "false"
  | Num n => pretty n
  | Str s => s
  | Arr items =>
      let fix go (l : list Value) : list string :=
        match l with
        | [] => []
        | Undefined :: rest | Null :: rest => "" :: go rest
        | x :: rest => ToString x :: go rest
        end in
      join "," (go items)
  | Obj _ => "[object Object]"
  end.

(** The items [for (const x of v)] goes through; a value that is neither
    an array nor a string is not iterable. *)
Definition iterate (what : string) (v : Value) : Eval (list Value) :=
  match v with
  | Arr items => Val items
  | Str s => Val (map (fun a => Str (String a "")) (list_ascii_of_string s))
  | _ => Throw (TypeError (what +:+ " is not iterable"))
  end.

(** [v === 'literal'] *)
Definition is_string (v : Value) (literal : string) : bool :=
  match v with
  | Str s => String.eqb s literal
  | _ => false
  end.

(** [s.toLowerCase()] on the letters of ASCII. *)
Fixpoint toLowerCase (s : string) : string :=
  match s with
  | EmptyString => EmptyString
  | String a rest =>
      let n := N_of_ascii a in
      String (if (65 <=? n)%N && (n <=? 90)%N then ascii_of_N (n + 32) else a)
             (toLowerCase rest)
  end.

(** [s.split(sep)] for a one-character separator. *)
Fixpoint split_on (sep : ascii) (s : string) : list string :=
  match s with
  | EmptyString => [EmptyString]
  | String a rest =>
      let parts := split_on sep rest in
      if Ascii.eqb a sep then EmptyString :: parts
      else match parts with
           | p :: ps => String a p :: ps
           | [] => [String a EmptyString]
           end
  end.

Definition is_space (a : ascii) : bool :=
  let n := N_of_ascii a in (n =? 32)%N || (n =? 9)%N.

Fixpoint trim_start (s : string) : string :=
  match s with
  | EmptyString => EmptyString
  | String a rest => if is_space a then trim_start rest else s
  end.

Fixpoint trim_end (s : string) : string :=
  match s with
  | EmptyString => EmptyString
  | String a rest =>
      match trim_end rest with
      | EmptyString => if is_space a then EmptyString else String a EmptyString
      | kept => String a kept
      end
  end.

(** A header value without the spaces and tabs around it. *)
Definition trim (s : string) : string := trim_end (trim_start s).

(** The numbers of a value are integers a double holds exactly (below
    2^53 in absolute value): for these, and only for these, [Num n] is
    the number [n] and its digits are what the language prints. *)
Fixpoint safe (v : Value) : bool :=
  match v with
  | Num n => (Z.abs n <? 2 ^ 53)
  | Arr items =>
      (fix go (l : list Value) : bool :=
         match l with
         | [] => true
         | x :: rest => safe x && go rest
         end) items
  | Obj fields =>
      (fix go (l : list (string * Value)) : bool :=
         match l with
         | [] => true
         | (_, x) :: rest => safe x && go rest
         end) fields
  | _ => true
  end.

(** The names a top-level function of the script can resolve: its own
    parameters and variables, the script's top-level declarations and the
    properties of the global object. *)
Definition resolves (locals declarations globals : list string) (id : string) : bool :=
  bool_decide (id ∈ (locals ++ declarations ++ globals)%list).

(** Evaluating an identifier that resolves nowhere throws. *)
Definition GetValue (locals declarations globals : list string) (id : string) : Eval unit :=
  if resolves locals declarations globals id then Val tt
  else Throw (ReferenceError (id +:+ " is not defined")).

End Js.

Notation "x <- m ;; k" := (Js.bind m (fun x => k))
  (at level 100, m at next level, right associativity).

(** ** The platform: responses, the network, the cache storage *)

Record Request : Type := mkRequest {
  method : string;
  url : string;
  (** [new URL(url).pathname] *)
  pathname : string;
  (** [headers.get('accept')], [None] for null *)
  accept : option string
}.

Record Response : Type := mkResponse {
  status : Z;
  headers : list (string * string);
  body : string
}.

(** [response.ok] *)
Definition ok (r : Response) : bool := (200 <=? status r) && (status r <=? 299).

(** How a [fetch] settles: fulfilled with a response or rejected with an
    error, [t] milliseconds after the call, or never. *)
Inductive Fetch : Type :=
  | Resolves (t : N) (r : Response)
  | Rejects (t : N) (e : Js.Error)
  | NeverSettles.

(** How a promise ends. [Pending] is the promise that never settles. *)
Inductive Completion (A : Type) : Type :=
  | Returns (v : A)
  | Throws (e : Js.Error)
  | Pending.
Arguments Returns {A} v.
Arguments Throws {A} e.
Arguments Pending {A}.

(** *** CacheStorage

    The namespaces in the order they were created ([caches.keys()] and
    [caches.match] go through them in that order), each a map from the
    request URL to the stored response. [match] and [delete] are total;
    [put] and [addAll] refuse what the Cache API refuses (see
    [put_refusal]). Quota is not modelled. *)
Abbreviation CacheStorage := (list (string * gmap string Response)).

Fixpoint caches_has (name : string) (s : CacheStorage) : bool :=
  match s with
  | [] => false
  | (n, _) :: rest => if decide (n = name) then true else caches_has name rest
  end.

(** [caches.open(name)] creates the namespace when it does not exist. *)
Definition caches_open (name : string) (s : CacheStorage) : CacheStorage :=
  if caches_has name s then s else (s ++ [(name, ∅)])%list.

(** [cache.match(request)] on the cache opened as [name]. *)
Fixpoint cache_match (name key : string) (s : CacheStorage) : option Response :=
  match s with
  | [] => None
  | (n, c) :: rest =>
      if decide (n = name) then c !! key else cache_match name key rest
  end.

(** The write of a [put] the cache accepted, on the cache opened as
    [name]. *)
Fixpoint cache_write (name key : string) (r : Response) (s : CacheStorage) : CacheStorage :=
  match s with
  | [] => []
  | (n, c) :: rest =>
      if decide (n = name) then (n, <[key := r]> c) :: rest
      else (n, c) :: cache_write name key r rest
  end.

(** The request URL is one the cache takes. *)
Definition http_url (u : string) : bool :=
  Js.startsWith u "http://" || Js.startsWith u "https://".

(** The response has a [Vary] header one of whose items is [*]. *)
Definition vary_star (r : Response) : bool :=
  existsb
    (fun h =>
       String.eqb (Js.toLowerCase h.1) "vary" &&
       existsb (fun item => String.eqb (Js.trim item) "*") (Js.split_on "," h.2))
    (headers r).

(** What [cache.put(request, response)] is rejected with, in the order
    the Cache API checks: a request that is not http(s) or not a GET, a
    partial response, a response that varies on everything. [None] when
    it is accepted. *)
Definition put_refusal (method key : string) (r : Response) : option Js.Error :=
  if negb (http_url key) then
    Some (Js.TypeError "Request scheme is unsupported")
  else if negb (String.eqb method "GET") then
    Some (Js.TypeError "Request method is unsupported")
  else if status r =? 206 then
    Some (Js.TypeError "Partial response (status code 206) is unsupported")
  else if vary_star r then
    Some (Js.TypeError "Vary header contains *")
  else None.

(** [cache.put(request, response)] on the cache opened as [name]; a
    string given for the request makes a GET. *)
Definition cache_put (name method key : string) (r : Response) (s : CacheStorage)
    : Js.Eval CacheStorage :=
  match put_refusal method key r with
  | Some e => Js.Throw e
  | None => Js.Val (cache_write name key r s)
  end.

(** [caches.match(url)]: the first namespace that has the key. *)
Fixpoint caches_match (key : string) (s : CacheStorage) : option Response :=
  match s with
  | [] => None
  | (_, c) :: rest =>
      match c !! key with
      | Some r => Some r
      | None => caches_match key rest
      end
  end.

(** [caches.keys()] *)
Definition caches_keys (s : CacheStorage) : list string := map fst s.

(** [caches.delete(name)] *)
Definition caches_delete (name : string) (s : CacheStorage) : CacheStorage :=
  filter (fun p => p.1 <> name) s.

(** *** What the worker does to the platform *)
Inductive Effect : Type :=
  | EFetch (url : string)
  | ELog (msg : string)
  | EError (msg : string)
  | ESkipWaiting
  | EClientsClaim
  | ECachesDelete (name : string)
  | EBroadcast (msg : Js.Value)
  | EPostMessage (port : nat) (msg : Js.Value)
  | EShowNotification (title : Js.Value) (options : Js.Value)
  | EUnhandledRejection (e : Js.Error).

Record Outcome (A : Type) : Type := mkOutcome {
  result : Completion A;
  caches_after : CacheStorage;
  effects : list Effect
}.
Arguments mkOutcome {A} _ _ _.
Arguments result {A} _.
Arguments caches_after {A} _.
Arguments effects {A} _.

(** A [cache.put] nobody awaits: when it is refused, the promise it
    returned is rejected with nobody to handle it. *)
Definition put_detached (name method key : string) (r : Response) (s : CacheStorage)
    : CacheStorage * list Effect :=
  match cache_put name method key r s with
  | Js.Val s' => (s', [])
  | Js.Throw e => (s, [EUnhandledRejection e])
  end.

(** ** The worker script *)

Module SW.

Definition APP_VERSION : string := "2.0.0".
Definition CACHE_NAME : string :=
  "pwa-cache-v" +:+ Js.replace_all "." "-" APP_VERSION.
Definition OFFLINE_CACHE : string := "offline-cache-v1".

Definition PRECACHE_ASSETS : list string :=
  [ "/"; "/index.html"; "/manifest.json"; "/favicon.ico";
    "/assets/css/styles.css"; "/assets/css/fonts.css";
    "/assets/js/app.js"; "/assets/js/vendor.js";
    "/assets/images/icon-192.png"; "/assets/images/icon-512.png";
    "/assets/images/logo.svg"; "/assets/images/fallback.jpg";
    "/assets/fonts/roboto.woff2";
    "/offline.html" ].

Definition RUNTIME_CACHE_PATHS : list string :=
  [ "/api/"; "/products/"; "/images/"; "/assets/" ].

Definition NETWORK_TIMEOUT : N := 5000.

(** The script's top-level declarations. *)
Definition declarations : list string :=
  [ "APP_VERSION"; "CACHE_NAME"; "OFFLINE_CACHE"; "PRECACHE_ASSETS";
    "RUNTIME_CACHE_PATHS"; "NETWORK_TIMEOUT";
    "handleApiRequest"; "handleImageRequest"; "handleAssetRequest";
    "handleHtmlRequest"; "networkFirstWithCache";
    "syncPendingPosts"; "syncSettings"; "updateContent";
    "sendMessageToClients"; "clearCache"; "updateAssets";
    "openDatabase"; "getSettingsFromIndexedDB"; "reportError" ].

(** The global object of a service worker: the properties of
    ServiceWorkerGlobalScope and WorkerGlobalScope and the language's
    globals the script names. [event] is a property of Window only. *)
Definition ServiceWorkerGlobalScope : list string :=
  [ "self"; "caches"; "clients"; "registration"; "serviceWorker";
    "skipWaiting"; "fetch"; "location"; "navigator"; "importScripts";
    "indexedDB"; "console"; "crypto"; "performance"; "origin";
    "isSecureContext"; "setTimeout"; "clearTimeout"; "setInterval";
    "clearInterval"; "queueMicrotask"; "structuredClone"; "atob"; "btoa";
    "addEventListener"; "removeEventListener"; "dispatchEvent";
    "Promise"; "Response"; "Request"; "Headers"; "URL"; "JSON"; "Date";
    "Error"; "Object"; "Array"; "String"; "undefined"; "globalThis" ].

(** *** install *)

Definition fetch_failed (f : Fetch) : bool :=
  match f with
  | Resolves _ r => negb (ok r)
  | Rejects _ _ => true
  | NeverSettles => false
  end.

Definition fetch_pending (f : Fetch) : bool :=
  match f with
  | NeverSettles => true
  | _ => false
  end.

Definition fetch_error (f : Fetch) : Js.Error :=
  match f with
  | Rejects _ e => e
  | _ => Js.TypeError "Request failed"
  end.

Fixpoint put_all (name : string) (entries : list (string * Fetch)) (s : CacheStorage) : CacheStorage :=
  match entries with
  | [] => s
  | (u, Resolves _ r) :: rest => put_all name rest (cache_write name u r s)
  | _ :: rest => put_all name rest s
  end.

(** What makes [cache.addAll] give up on a URL: a URL that is not
    http(s), a rejected fetch, a response that is not ok, or one that
    [put] refuses. *)
Definition addAll_refused (e : string * Fetch) : bool :=
  negb (http_url e.1) || fetch_failed e.2 ||
  match e.2 with
  | Resolves _ r =>
      match put_refusal "GET" e.1 r with
      | Some _ => true
      | None => false
      end
  | _ => false
  end.

Definition addAll_error (e : string * Fetch) : Js.Error :=
  if negb (http_url e.1) then Js.TypeError "Request scheme is unsupported"
  else if fetch_failed e.2 then fetch_error e.2
  else match e.2 with
       | Resolves _ r => default (Js.TypeError "Request failed") (put_refusal "GET" e.1 r)
       | _ => Js.TypeError "Request failed"
       end.

(** [cache.addAll(urls)] on the cache opened as [name]: every URL is
    fetched; one URL it gives up on rejects the whole call and nothing
    is stored. The error is that of the first such URL in the order of
    the list. With every response there, the batch of puts is refused
    when two of them are for the same URL. *)
Definition cache_addAll (resolve : string -> string) (net : string -> Fetch)
    (name : string) (urls : list string) (s : CacheStorage)
    : Completion unit * CacheStorage :=
  let entries := map (fun u => (resolve u, net (resolve u))) urls in
  match List.find addAll_refused entries with
  | Some e => (Throws (addAll_error e), s)
  | None =>
      if existsb (fun e => fetch_pending e.2) entries then (Pending, s)
      else if bool_decide (NoDup (map resolve urls))
      then (Returns tt, put_all name entries s)
      else (Throws (Js.mkError "InvalidStateError" "duplicate requests"), s)
  end.

(** The fetches [cache.addAll] starts: it goes through the URLs in
    order, and stops at one that is not http(s). *)
Fixpoint addAll_fetches (resolve : string -> string) (urls : list string) : list Effect :=
  match urls with
  | [] => []
  | u :: rest =>
      if http_url (resolve u) then EFetch (resolve u) :: addAll_fetches resolve rest
      else []
  end.

(** [Promise.all] of two promises. *)
Definition all2 (a b : Completion unit) : Completion unit :=
  match a, b with
  | Throws e, _ => Throws e
  | _, Throws e => Throws e
  | Pending, _ | _, Pending => Pending
  | Returns _, Returns _ => Returns tt
  end.

(** The install listener; the result is how the promise handed to
    [event.waitUntil] settles, which decides whether the install
    succeeds. *)
Definition install (resolve : string -> string) (net : string -> Fetch)
    (s : CacheStorage) : Outcome unit :=
  let s := caches_open CACHE_NAME s in
  let s := caches_open OFFLINE_CACHE s in
  let '(core, s) := cache_addAll resolve net CACHE_NAME PRECACHE_ASSETS s in
  let '(offline, s) := cache_addAll resolve net OFFLINE_CACHE ["/offline.html"] s in
  let fetched :=
    (addAll_fetches resolve PRECACHE_ASSETS ++ addAll_fetches resolve ["/offline.html"])%list in
  let started :=
    ([ELog ("Installing version " +:+ APP_VERSION); ESkipWaiting;
      ELog "Caching core assets"] ++ fetched)%list in
  let cached :=
    match core with
    | Returns _ => [ELog "All assets cached"]
    | _ => []
    end in
  match all2 core offline with
  | Throws e =>
      (* .catch(error => { console.error(...) }) *)
      mkOutcome (Returns tt) s (started ++ cached ++ [EError "Installation failed:"])%list
  | Returns _ => mkOutcome (Returns tt) s (started ++ cached)%list
  | Pending => mkOutcome Pending s (started ++ cached)%list
  end.

(** *** activate *)

Definition activate_one (acc : CacheStorage * list Effect) (cacheName : string)
    : CacheStorage * list Effect :=
  if bool_decide (cacheName <> CACHE_NAME) && bool_decide (cacheName <> OFFLINE_CACHE)
  then (caches_delete cacheName acc.1,
        (acc.2 ++ [ELog ("Deleting old cache: " +:+ cacheName); ECachesDelete cacheName])%list)
  else acc.

(** [clients.claim()] is called while the array for [Promise.all] is
    built, before [caches.keys()] has answered. *)
Definition activate (s : CacheStorage) : Outcome unit :=
  let '(s', deleted) := foldl activate_one (s, []) (caches_keys s) in
  mkOutcome (Returns tt) s'
    ([ELog "Activating new version"; EClientsClaim] ++ deleted ++
     [ELog "Activated and ready";
      EBroadcast (Js.Obj [("type", Js.Str "SW_ACTIVATED"); ("version", Js.Str APP_VERSION)])])%list.

(** *** Request handling strategies *)

(** What [await Promise.race([networkPromise, timeoutPromise])] gives:
    the promise that settles first decides. [fetch] is called before
    [setTimeout], so a fetch that settles exactly when the timer is due
    settles first. *)
Definition race (net : Fetch) : Js.Eval Response :=
  match net with
  | Resolves t r =>
      if (t <=? NETWORK_TIMEOUT)%N then Js.Val r
      else Js.Throw (Js.PlainError "Network timeout")
  | Rejects t e =>
      if (t <=? NETWORK_TIMEOUT)%N then Js.Throw e
      else Js.Throw (Js.PlainError "Network timeout")
  | NeverSettles => Js.Throw (Js.PlainError "Network timeout")
  end.

(** The body of the offline API response; [now] is
    [new Date().toISOString()]. *)
Definition offlineBody (now : string) : Js.Value :=
  Js.Obj [("error", Js.Str "You are offline");
          ("timestamp", Js.Str now);
          ("cached", Js.Bool true)].

Definition offlineApiResponse (now : string) : Response :=
  {| status := 503;
     headers := [("Content-Type", "application/json")];
     body := default "" (Js.JSON_stringify (offlineBody now)) |}.

(** The [try] block of [handleApiRequest]: the race, then the awaited
    [cache.put] of an ok response. What is thrown is the loss of the
    race or the refusal of the put. *)
Definition tryNetwork (request : Request) (net : Fetch) (s : CacheStorage)
    : Js.Eval (Response * CacheStorage) :=
  response <- race net ;;
  if ok response then
    s' <- cache_put CACHE_NAME (method request) (url request) response s ;;
    Js.Val (response, s')
  else Js.Val (response, s).

(** Strategy 1: network first with cache fallback (API calls). *)
Definition handleApiRequest (now : string) (request : Request) (net : Fetch)
    (s : CacheStorage) : Outcome (option Response) :=
  let s := caches_open CACHE_NAME s in
  match tryNetwork request net s with
  | Js.Val (response, s') =>
      mkOutcome (Returns (Some response)) s' [EFetch (url request)]
  | Js.Throw error =>
      let log := [EFetch (url request); ELog "API network failed, trying cache:"] in
      match cache_match CACHE_NAME (url request) s with
      | Some cachedResponse => mkOutcome (Returns (Some cachedResponse)) s log
      | None => mkOutcome (Returns (Some (offlineApiResponse now))) s log
      end
  end.

(** [if (networkResponse.ok) { cache.put(request, ...) }] with the put
    not awaited: the storage afterwards and the rejection nobody
    handles, if the put was refused. *)
Definition cacheIfOk (request : Request) (networkResponse : Response) (s : CacheStorage)
    : CacheStorage * list Effect :=
  if ok networkResponse
  then put_detached CACHE_NAME (method request) (url request) networkResponse s
  else (s, []).

(** The variables of [handleImageRequest]. *)
Definition handleImageRequest_locals : list string :=
  [ "request"; "cache"; "cachedResponse"; "networkResponse"; "error" ].

(** Strategy 2: cache first, network update (images). On a hit the call
    [event.waitUntil(fetch(request)...)] is evaluated callee first: the
    identifier [event] is looked up before [fetch(request)] is called. *)
Definition handleImageRequest (resolve : string -> string) (request : Request)
    (net : Fetch) (s : CacheStorage) : Outcome (option Response) :=
  let s := caches_open CACHE_NAME s in
  match cache_match CACHE_NAME (url request) s with
  | Some cachedResponse =>
      match Js.GetValue handleImageRequest_locals declarations ServiceWorkerGlobalScope "event" with
      | Js.Throw e => mkOutcome (Throws e) s []
      | Js.Val _ =>
          let '(s, unhandled) :=
            match net with
            | Resolves _ networkResponse => cacheIfOk request networkResponse s
            | _ => (s, [])
            end in
          mkOutcome (Returns (Some cachedResponse)) s (EFetch (url request) :: unhandled)
      end
  | None =>
      match net with
      | Resolves _ networkResponse =>
          let '(s, unhandled) := cacheIfOk request networkResponse s in
          mkOutcome (Returns (Some networkResponse)) s (EFetch (url request) :: unhandled)
      | Rejects _ _ =>
          mkOutcome (Returns (caches_match (resolve "/assets/images/fallback.jpg") s)) s
            [EFetch (url request)]
      | NeverSettles => mkOutcome Pending s [EFetch (url request)]
      end
  end.

(** Strategy 3: stale-while-revalidate (CSS/JS assets). [networkPromise]
    is the fetch with its [then] and [catch] attached: how it settles and
    the storage it leaves. *)
Definition networkPromise (request : Request) (cachedResponse : option Response)
    (net : Fetch) (s : CacheStorage)
    : Completion (option Response) * (CacheStorage * list Effect) :=
  match net with
  | Resolves _ networkResponse =>
      (Returns (Some networkResponse), cacheIfOk request networkResponse s)
  | Rejects _ _ =>
      match cachedResponse with
      | Some c => (Returns (Some c), (s, []))
      | None => (Throws (Js.PlainError "Network failed and no cache available"), (s, []))
      end
  | NeverSettles => (Pending, (s, []))
  end.

Definition handleAssetRequest (request : Request) (net : Fetch)
    (s : CacheStorage) : Outcome (option Response) :=
  let s := caches_open CACHE_NAME s in
  let cachedResponse := cache_match CACHE_NAME (url request) s in
  let '(settled, (s', unhandled)) := networkPromise request cachedResponse net s in
  match cachedResponse with
  | Some c => mkOutcome (Returns (Some c)) s' (EFetch (url request) :: unhandled)
  | None => mkOutcome settled s' (EFetch (url request) :: unhandled)
  end.

(** Strategy 4: network first for HTML, with the offline page. *)
Definition handleHtmlRequest (resolve : string -> string) (request : Request)
    (net : Fetch) (s : CacheStorage) : Outcome (option Response) :=
  match net with
  | Resolves _ networkResponse =>
      let '(s, unhandled) :=
        if ok networkResponse
        then put_detached CACHE_NAME (method request) (url request) networkResponse
               (caches_open CACHE_NAME s)
        else (s, []) in
      mkOutcome (Returns (Some networkResponse)) s (EFetch (url request) :: unhandled)
  | Rejects _ _ =>
      let s := caches_open CACHE_NAME s in
      match cache_match CACHE_NAME (url request) s with
      | Some cachedResponse => mkOutcome (Returns (Some cachedResponse)) s [EFetch (url request)]
      | None =>
          mkOutcome (Returns (caches_match (resolve "/offline.html") s)) s [EFetch (url request)]
      end
  | NeverSettles => mkOutcome Pending s [EFetch (url request)]
  end.

(** Default strategy: network first with cache fallback. *)
Definition networkFirstWithCache (request : Request) (net : Fetch)
    (s : CacheStorage) : Outcome (option Response) :=
  match net with
  | Resolves _ networkResponse =>
      let '(s, unhandled) :=
        if ok networkResponse
        then put_detached CACHE_NAME (method request) (url request) networkResponse
               (caches_open CACHE_NAME s)
        else (s, []) in
      mkOutcome (Returns (Some networkResponse)) s (EFetch (url request) :: unhandled)
  | Rejects _ _ =>
      let s := caches_open CACHE_NAME s in
      match cache_match CACHE_NAME (url request) s with
      | Some cachedResponse => mkOutcome (Returns (Some cachedResponse)) s [EFetch (url request)]
      | None =>
          mkOutcome
            (Returns (Some {| status := 408;
                              headers := [("Content-Type", "text/plain")];
                              body := "Network error and no cache available" |}))
            s [EFetch (url request)]
      end
  | NeverSettles => mkOutcome Pending s [EFetch (url request)]
  end.

(** *** fetch *)

Inductive Strategy : Type := API | IMAGE | ASSET | HTML | DEFAULT.

(** The listener's tests, in the order it makes them; [None] is the
    request it leaves to the browser. *)
Definition classify (request : Request) : option Strategy :=
  if bool_decide (method request <> "GET")
     || Js.startsWith (url request) "chrome-extension://"
     || Js.includes (url request) "sockjs-node"
  then None
  else if Js.startsWith (pathname request) "/api/" then Some API
  else if Js.startsWith (pathname request) "/assets/images/" then Some IMAGE
  else if Js.startsWith (pathname request) "/assets/" then Some ASSET
  else if match accept request with
          | Some a => Js.includes a "text/html"
          | None => false
          end
  then Some HTML
  else Some DEFAULT.

Definition execute (st : Strategy) (resolve : string -> string) (now : string)
    (request : Request) (net : Fetch) (s : CacheStorage) : Outcome (option Response) :=
  match st with
  | API => handleApiRequest now request net s
  | IMAGE => handleImageRequest resolve request net s
  | ASSET => handleAssetRequest request net s
  | HTML => handleHtmlRequest resolve request net s
  | DEFAULT => networkFirstWithCache request net s
  end.

(** The fetch listener: the promise it hands to [event.respondWith], or
    [None] when it returns without responding. *)
Definition on_fetch (resolve : string -> string) (now : string)
    (request : Request) (net : Fetch) (s : CacheStorage)
    : option (Outcome (option Response)) :=
  match classify request with
  | None => None
  | Some st => Some (execute st resolve now request net s)
  end.

(** *** push *)

(** The notification a payload asks for: the title and the options
    object. [data] is what [event.data.json()] returned, [now] is
    [Date.now()]. *)
Definition notification (now : Z) (data : Js.Value) : Js.Eval (Js.Value * Js.Value) :=
  body <- Js.get data "body" ;;
  icon <- Js.get data "icon" ;;
  image <- Js.get data "image" ;;
  data' <- Js.get data "data" ;;
  actions <- Js.get data "actions" ;;
  tag <- Js.get data "tag" ;;
  requireInteraction <- Js.get data "requireInteraction" ;;
  silent <- Js.get data "silent" ;;
  timestamp <- Js.get data "timestamp" ;;
  vibrate <- Js.get data "vibrate" ;;
  title <- Js.get data "title" ;;
  Js.Val
    (Js.or_else title (Js.Str "My PWA"),
     Js.Obj
       [("body", Js.or_else body (Js.Str "New notification"));
        ("icon", Js.or_else icon (Js.Str "/assets/images/icon-192.png"));
        ("badge", Js.Str "/assets/images/badge-72.png");
        ("image", image);
        ("data", Js.or_else data' (Js.Obj []));
        ("actions", Js.or_else actions (Js.Arr []));
        ("tag", Js.or_else tag (Js.Str "default"));
        ("requireInteraction", Js.or_else requireInteraction (Js.Bool false));
        ("silent", Js.or_else silent (Js.Bool false));
        ("timestamp", Js.or_else timestamp (Js.Num now));
        ("vibrate", Js.or_else vibrate (Js.Arr [Js.Num 200; Js.Num 100; Js.Num 200]))]).

(** The push listener. [data] is [event.data]: [None] for null, else how
    its [json()] ends, with the parsed value or with the SyntaxError of a
    payload that is not JSON. [Throws] is an exception that leaves the
    listener. *)
Definition on_push (now : Z) (data : option (Js.Eval Js.Value)) (s : CacheStorage)
    : Outcome unit :=
  match data with
  | None => mkOutcome (Returns tt) s [ELog "Push received"]
  | Some parsed =>
      match (data <- parsed ;; notification now data) with
      | Js.Throw e => mkOutcome (Throws e) s [ELog "Push received"]
      | Js.Val (title, options) =>
          mkOutcome (Returns tt) s [ELog "Push received"; EShowNotification title options]
      end
  end.

(** *** message *)

(** Clear all caches. *)
Definition clearCache (s : CacheStorage) : CacheStorage * list Effect :=
  let cacheNames := caches_keys s in
  (foldl (fun acc name => caches_delete name acc) s cacheNames,
   (map ECachesDelete cacheNames ++ [ELog "All caches cleared"])%list).

Definition updated (u : Js.Value) : Js.Value :=
  Js.Obj [("url", u); ("status", Js.Str "updated")].

Definition failed (u : Js.Value) (error : string) : Js.Value :=
  Js.Obj [("url", u); ("status", Js.Str "failed"); ("error", Js.Str error)].

(** The loop of [updateAssets] over the URLs still to do. *)
Fixpoint updateAssets_loop (resolve : string -> string) (net : string -> Fetch)
    (urls : list Js.Value) (results : list Js.Value) (s : CacheStorage)
    (done : list Effect) : Outcome Js.Value :=
  match urls with
  | [] => mkOutcome (Returns (Js.Arr results)) s done
  | u :: rest =>
      let key := resolve (Js.ToString u) in
      let done := (done ++ [EFetch key])%list in
      match net key with
      | Resolves _ response =>
          if ok response
          then match cache_put CACHE_NAME "GET" key response s with
               | Js.Val s' =>
                   updateAssets_loop resolve net rest (results ++ [updated u])%list s' done
               | Js.Throw error =>
                   updateAssets_loop resolve net rest
                     (results ++ [failed u (Js.err_message error)])%list s done
               end
          else updateAssets_loop resolve net rest
                 (results ++ [failed u "Network error"])%list s done
      | Rejects _ e =>
          updateAssets_loop resolve net rest
            (results ++ [failed u (Js.err_message e)])%list s done
      | NeverSettles => mkOutcome Pending s done
      end
  end.

(** Update specific assets in cache. *)
Definition updateAssets (resolve : string -> string) (net : string -> Fetch)
    (urls : Js.Value) (s : CacheStorage) : Outcome Js.Value :=
  let s := caches_open CACHE_NAME s in
  match Js.iterate "urls" urls with
  | Js.Throw e => mkOutcome (Throws e) s []
  | Js.Val items => updateAssets_loop resolve net items [] s []
  end.

(** [event.ports[0].postMessage(msg)]: without a port, [event.ports[0]]
    is undefined and the call throws. *)
Definition reply (ports : list nat) (msg : Js.Value) : Js.Eval Effect :=
  match ports with
  | p :: _ => Js.Val (EPostMessage p msg)
  | [] => Js.Throw (Js.TypeError "Cannot read properties of undefined (reading 'postMessage')")
  end.

(** A reply made in a [then] callback: what throws there rejects a
    promise nobody handles. *)
Definition reply_later (ports : list nat) (msg : Js.Value) : Effect :=
  match reply ports msg with
  | Js.Val e => e
  | Js.Throw e => EUnhandledRejection e
  end.

(** The message listener. [data] is [event.data], [ports] is
    [event.ports]. [Throws] is an exception that leaves the listener. *)
Definition on_message (resolve : string -> string) (net : string -> Fetch)
    (data : Js.Value) (ports : list nat) (s : CacheStorage) : Outcome unit :=
  let received := ELog "Message received:" in
  match Js.get data "type" with
  | Js.Throw e => mkOutcome (Throws e) s [received]
  | Js.Val type =>
      if Js.is_string type "SKIP_WAITING" then
        mkOutcome (Returns tt) s [received; ESkipWaiting]
      else if Js.is_string type "GET_CACHE_INFO" then
        match reply ports (Js.Obj [("cacheName", Js.Str CACHE_NAME);
                                   ("version", Js.Str APP_VERSION)]) with
        | Js.Val e => mkOutcome (Returns tt) s [received; e]
        | Js.Throw e => mkOutcome (Throws e) s [received]
        end
      else if Js.is_string type "CLEAR_CACHE" then
        let '(s', cleared) := clearCache s in
        mkOutcome (Returns tt) s'
          (received :: cleared ++ [reply_later ports (Js.Obj [("success", Js.Bool true)])])%list
      else if Js.is_string type "UPDATE_ASSETS" then
        match Js.get data "urls" with
        | Js.Throw e => mkOutcome (Throws e) s [received]
        | Js.Val urls =>
            let out := updateAssets resolve net urls s in
            match result out with
            | Returns results =>
                mkOutcome (Returns tt) (caches_after out)
                  (received :: effects out ++ [reply_later ports results])%list
            | Throws e =>
                mkOutcome (Returns tt) (caches_after out)
                  (received :: effects out ++ [EUnhandledRejection e])%list
            | Pending =>
                mkOutcome (Returns tt) (caches_after out) (received :: effects out)
            end
        end
      else mkOutcome (Returns tt) s [received]
  end.

(** *** notificationclick *)

(** A client of [clients.matchAll]: its URL and whether it has [focus]. *)
Record WindowClient : Type := mkClient {
  client_url : string;
  has_focus : bool
}.

(** What the click does to the platform. [ClientFocus i] is [focus()] on
    the client at index [i] of the list. *)
Inductive ClickEffect : Type :=
  | NotificationClose
  | ClientFocus (index : nat)
  | OpenWindow (url : Js.Value).

(** [event.notification.data?.url || '/'] *)
Definition urlToOpen (data : Js.Value) : Js.Value :=
  Js.or_else
    match data with
    | Js.Obj fields => Js.assoc "url" fields
    | _ => Js.Undefined
    end
    (Js.Str "/").

(** The loop over the client list, from index [i] on: the first client
    with [client.url === urlToOpen && 'focus' in client]. *)
Fixpoint find_client (target : Js.Value) (clientList : list WindowClient) (i : nat)
    : option nat :=
  match clientList with
  | [] => None
  | client :: rest =>
      if Js.is_string target (client_url client) && has_focus client
      then Some i
      else find_client target rest (S i)
  end.

(** The notificationclick listener. [data] is [event.notification.data],
    [clientList] what [clients.matchAll] gives, [openWindow] whether
    [clients.openWindow] is there. *)
Definition on_notificationclick (data : Js.Value) (clientList : list WindowClient)
    (openWindow : bool) : list ClickEffect :=
  NotificationClose ::
  match find_client (urlToOpen data) clientList 0 with
  | Some i => [ClientFocus i]
  | None => if openWindow then [OpenWindow (urlToOpen data)] else []
  end.

(** *** periodicsync *)

(** [new Response(text)]: status 200 and the content type a body given
    as a string gets. *)
Definition textResponse (text : string) : Response :=
  {| status := 200;
     headers := [("content-type", "text/plain;charset=UTF-8")];
     body := text |}.

(** [json] is [response.json()]: the parsed body, or the SyntaxError of a
    body that is not JSON. *)
Definition updateContent (resolve : string -> string)
    (json : Response -> Js.Eval Js.Value) (net : Fetch) (s : CacheStorage)
    : Outcome unit :=
  let key := resolve "/api/latest-content" in
  let failure := mkOutcome (Returns tt) s [EFetch key; EError "Periodic sync failed:"] in
  match net with
  | Resolves _ response =>
      match json response with
      | Js.Val content =>
          match cache_put CACHE_NAME "GET" key
                  (textResponse (default "" (Js.JSON_stringify content)))
                  (caches_open CACHE_NAME s) with
          | Js.Val s' =>
              mkOutcome (Returns tt) s'
                [EFetch key;
                 EBroadcast (Js.Obj [("type", Js.Str "CONTENT_UPDATED"); ("data", content)]);
                 ELog "Content updated via periodic sync"]
          | Js.Throw _ =>
              mkOutcome (Returns tt) (caches_open CACHE_NAME s)
                [EFetch key; EError "Periodic sync failed:"]
          end
      | Js.Throw _ => failure
      end
  | Rejects _ _ => failure
  | NeverSettles => mkOutcome Pending s [EFetch key]
  end.

(** The periodicsync listener; the result is the promise handed to
    [event.waitUntil], fulfilled at once for a tag it does not know. *)
Definition on_periodicsync (resolve : string -> string)
    (json : Response -> Js.Eval Js.Value) (tag : string) (net : Fetch)
    (s : CacheStorage) : Outcome unit :=
  if String.eqb tag "update-content" then
    let out := updateContent resolve json net s in
    mkOutcome (result out) (caches_after out) (ELog "Periodic sync triggered" :: effects out)
  else mkOutcome (Returns tt) s [].

End SW.

(** ** Vocabulary of the statements *)

(** The requests the worker answered with a message on a port. *)
Fixpoint replies (l : list Effect) : list (nat * Js.Value) :=
  match l with
  | [] => []
  | EPostMessage p m :: rest => (p, m) :: replies rest
  | _ :: rest => replies rest
  end.

(** The namespaces [caches.delete] was called on. *)
Fixpoint deleted (l : list Effect) : list string :=
  match l with
  | [] => []
  | ECachesDelete n :: rest => n :: deleted rest
  | _ :: rest => deleted rest
  end.

(** The network lost the race of the API strategy: the fetch was
    rejected, or had not settled when the timer fired. *)
Definition network_fails (net : Fetch) : Prop :=
  match net with
  | Resolves t _ => (SW.NETWORK_TIMEOUT < t)%N
  | Rejects _ _ => True
  | NeverSettles => True
  end.

(** The strategy answers with what the network sent: the network-first
    strategies when the response is there in time, the cache-first ones
    when the cache has nothing for the request. *)
Definition answers_from_network (st : SW.Strategy) (request : Request) (t : N)
    (s : CacheStorage) : bool :=
  match st with
  | SW.API => (t <=? SW.NETWORK_TIMEOUT)%N
  | SW.IMAGE | SW.ASSET =>
      match cache_match SW.CACHE_NAME (url request) s with
      | Some _ => false
      | None => true
      end
  | SW.HTML | SW.DEFAULT => true
  end.

(** [data.k] for a [data] that is neither null nor undefined. *)
Definition field (data : Js.Value) (k : string) : Js.Value :=
  match data with
  | Js.Obj fields => Js.assoc k fields
  | _ => Js.Undefined
  end.

(** The fields of the push payload that get a fixed default. *)
Definition push_defaults : list (string * Js.Value) :=
  [("body", Js.Str "New notification");
   ("icon", Js.Str "/assets/images/icon-192.png");
   ("data", Js.Obj []);
   ("actions", Js.Arr []);
   ("tag", Js.Str "default");
   ("requireInteraction", Js.Bool false);
   ("silent", Js.Bool false);
   ("vibrate", Js.Arr [Js.Num 200; Js.Num 100; Js.Num 200])].

(** The message types the listener knows. *)
Definition known_type (type : Js.Value) : bool :=
  Js.is_string type "SKIP_WAITING" || Js.is_string type "GET_CACHE_INFO"
  || Js.is_string type "CLEAR_CACHE" || Js.is_string type "UPDATE_ASSETS".

(** The response a settled fetch brought. *)
Definition response_of (f : Fetch) : option Response :=
  match f with
  | Resolves _ r => Some r
  | _ => None
  end.

(** The cache stores what this fetch of [key] brought: a response with a
    status in [200,299] that [put] does not refuse. *)
Definition storable (key : string) (f : Fetch) : bool :=
  match f with
  | Resolves _ r =>
      ok r && match put_refusal "GET" key r with
              | Some _ => false
              | None => true
              end
  | _ => false
  end.

(** [cache.addAll] of these URLs goes through: they resolve to different
    URLs, each is fetched and what it brings is stored. *)
Definition all_ok (resolve : string -> string) (net : string -> Fetch)
    (urls : list string) : bool :=
  forallb (fun u => storable (resolve u) (net (resolve u))) urls
  && bool_decide (NoDup (map resolve urls)).

(** What the reply of [updateAssets] says of one URL: [updated] when the
    cache stored what the fetch brought; else [failed], with the reason
    [Network error] for a response that is not ok, the error's message
    for a rejected fetch, and the cache's reason for a refused put. *)
Definition reported (resolve : string -> string) (net : string -> Fetch)
    (u entry : Js.Value) : Prop :=
  let key := resolve (Js.ToString u) in
  match net key with
  | Resolves _ r =>
      if ok r then
        match put_refusal "GET" key r with
        | None => entry = SW.updated u
        | Some _ => exists reason, entry = SW.failed u reason
        end
      else entry = SW.failed u "Network error"
  | Rejects _ e => entry = SW.failed u (Js.err_message e)
  | NeverSettles => False
  end.

(** The messages sent to every client. *)
Fixpoint broadcasts (l : list Effect) : list Js.Value :=
  match l with
  | [] => []
  | EBroadcast m :: rest => m :: broadcasts rest
  | _ :: rest => broadcasts rest
  end.

(** *** Sample inputs *)

Module Sample.

Definition resolve (path : string) : string := "https://zewedjobs.example" +:+ path.

Definition get (path : string) (accept : option string) : Request :=
  {| method := "GET"; url := resolve path; pathname := path; accept := accept |}.

Definition respond (status : Z) (body : string) : Response :=
  {| status := status; headers := []; body := body |}.

Definition now : string := "2026-01-01T00:00:00.000Z".

Definition widgets : Request := get "/api/widgets" (Some "application/json").
Definition logo : Request := get "/assets/images/logo.svg" (Some "image/*").
Definition styles : Request := get "/assets/css/styles.css" (Some "text/css").

Definition fresh : Response := respond 200 "{id:1}".
Definition partial : Response := respond 206 "{id:".
Definition stale : Response := respond 200 "{id:0}".
Definition missing : Response := respond 404 "Not Found".

(** A storage whose current namespace holds [r] for [request]. *)
Definition holding (request : Request) (r : Response) : CacheStorage :=
  [(SW.CACHE_NAME, {[ url request := r ]})].

(** A network on which every URL answers 200 except [bad], which
    answers 404. *)
Definition all_but (bad : string) (u : string) : Fetch :=
  if String.eqb u (resolve bad) then Resolves 40 (respond 404 "Not Found")
  else Resolves 40 (respond 200 u).

(** A network on which every URL is rejected. *)
Definition offline (u : string) : Fetch := Rejects 5 (Js.TypeError "Failed to fetch").

Definition page : Request := get "/jobs" (Some "text/html,application/xhtml+xml").
Definition content : Request := get "/api/latest-content" (Some "application/json").

(** A parser that takes every body for the number 7. *)
Definition seven (r : Response) : Js.Eval Js.Value := Js.Val (Js.Num 7).

Definition two_namespaces : CacheStorage :=
  [("pwa-cache-v1-0-0", {[ resolve "/" := respond 200 "old" ]});
   (SW.OFFLINE_CACHE, {[ resolve "/offline.html" := respond 200 "offline" ]})].

End Sample.

(** ** The cache storage *)

Module Storage.

Lemma has_app (name : string) (s1 s2 : CacheStorage) :
  caches_has name (s1 ++ s2) = caches_has name s1 || caches_has name s2.
Proof.
  induction s1 as [|[n c] s1 IH]; simpl; [done|].
  destruct (decide (n = name)); [done | apply IH].
Qed.

Lemma has_open (name : string) (s : CacheStorage) :
  caches_has name (caches_open name s) = true.
Proof.
  unfold caches_open. destruct (caches_has name s) eqn:E; [done|].
  rewrite has_app, E. simpl. destruct (decide (name = name)); done.
Qed.

Lemma match_absent (name key : string) (s : CacheStorage) :
  caches_has name s = false -> cache_match name key s = None.
Proof.
  induction s as [|[n c] s IH]; simpl; [done|].
  destruct (decide (n = name)); [done | apply IH].
Qed.

Lemma match_app (name key : string) (s1 s2 : CacheStorage) :
  cache_match name key (s1 ++ s2) =
  if caches_has name s1 then cache_match name key s1 else cache_match name key s2.
Proof.
  induction s1 as [|[n c] s1 IH]; simpl; [done|].
  destruct (decide (n = name)); [done | apply IH].
Qed.

(** Opening a namespace changes no entry. *)
Lemma match_open (n name key : string) (s : CacheStorage) :
  cache_match name key (caches_open n s) = cache_match name key s.
Proof.
  unfold caches_open. destruct (caches_has n s) eqn:E; [done|].
  rewrite match_app. destruct (caches_has name s) eqn:E'; [done|].
  rewrite (match_absent _ _ _ E'). simpl.
  destruct (decide (n = name)); [apply lookup_empty | done].
Qed.

Lemma match_put_eq (name key : string) (r : Response) (s : CacheStorage) :
  caches_has name s = true -> cache_match name key (cache_write name key r s) = Some r.
Proof.
  induction s as [|[n c] s IH]; simpl; [done|].
  destruct (decide (n = name)) as [->|Hne]; simpl.
  - intros _. destruct (decide (name = name)); [apply lookup_insert_eq | done].
  - intros H. destruct (decide (n = name)); [done | by apply IH].
Qed.

Lemma match_put_ne (name key name' key' : string) (r : Response) (s : CacheStorage) :
  name' <> name \/ key' <> key ->
  cache_match name' key' (cache_write name key r s) = cache_match name' key' s.
Proof.
  intros Hne. induction s as [|[n c] s IH]; simpl; [done|].
  destruct (decide (n = name)) as [->|Hn]; simpl.
  - destruct (decide (name = name')) as [<-|]; [|done].
    destruct Hne as [Hne|Hne]; [done|]. by apply lookup_insert_ne.
  - destruct (decide (n = name')); [done | apply IH].
Qed.

Lemma keys_delete (name : string) (s : CacheStorage) :
  caches_keys (caches_delete name s) = filter (fun n => n <> name) (caches_keys s).
Proof.
  unfold caches_keys, caches_delete.
  induction s as [|[n c] s IH]; [done|].
  simpl. rewrite !filter_cons. simpl.
  destruct (decide (n <> name)); simpl; by rewrite IH.
Qed.

Lemma match_delete_ne (name name' key : string) (s : CacheStorage) :
  name' <> name ->
  cache_match name' key (caches_delete name s) = cache_match name' key s.
Proof.
  intros Hne. unfold caches_delete.
  induction s as [|[n c] s IH]; [done|].
  rewrite filter_cons. simpl.
  destruct (decide (n <> name)) as [Hn|Hn]; simpl.
  - destruct (decide (n = name')); [done | apply IH].
  - destruct (decide (n = name')) as [->|]; [|apply IH].
    destruct Hn. done.
Qed.

(** Deleting every name of a list that covers the storage empties it. *)
Lemma delete_all (names : list string) (s : CacheStorage) :
  (forall n, n ∈ caches_keys s -> n ∈ names) ->
  foldl (fun acc name => caches_delete name acc) s names = [].
Proof.
  revert s. induction names as [|n names IH]; intros s Hs; simpl.
  - destruct s as [|[n c] s]; [done|].
    specialize (Hs n). simpl in Hs. set_solver.
  - apply IH. intros m Hm. rewrite keys_delete in Hm.
    apply list_elem_of_filter in Hm. destruct Hm as [Hne Hin].
    apply Hs, elem_of_cons in Hin. by destruct Hin.
Qed.

End Storage.

(** ** What the cache refuses *)

Example refusals :
  vary_star {| status := 200; headers := [("Vary", "Accept, *")]; body := "" |} = true /\
  vary_star {| status := 200; headers := [("vary", "accept-encoding")]; body := "" |} = false /\
  put_refusal "GET" (Sample.resolve "/a") Sample.fresh = None /\
  is_Some (put_refusal "GET" (Sample.resolve "/a") Sample.partial) /\
  is_Some (put_refusal "POST" (Sample.resolve "/a") Sample.fresh) /\
  is_Some (put_refusal "GET" "chrome-extension://abc/a.js" Sample.fresh).
Proof. vm_compute. repeat split; by eexists. Qed.

(** ** The listener's tests on sample requests *)

Example classify_samples :
  SW.classify Sample.widgets = Some SW.API /\
  SW.classify Sample.logo = Some SW.IMAGE /\
  SW.classify Sample.styles = Some SW.ASSET /\
  SW.classify (Sample.get "/jobs" (Some "text/html,application/xhtml+xml")) = Some SW.HTML /\
  SW.classify (Sample.get "/manifest.json" None) = Some SW.DEFAULT /\
  SW.classify (Sample.get "/sockjs-node/info" None) = None /\
  SW.classify {| method := "POST"; url := Sample.resolve "/api/posts";
                 pathname := "/api/posts"; accept := None |} = None.
Proof. vm_compute. repeat split. Qed.

Example cache_name : SW.CACHE_NAME = "pwa-cache-v2-0-0".
Proof. reflexivity. Qed.

(** ** activate *)

Lemma activate_fold_keys (names : list string) (s : CacheStorage) (e : list Effect) (n : string) :
  n ∈ caches_keys (foldl SW.activate_one (s, e) names).1 ->
  n ∈ caches_keys s /\ (n ∈ names -> n = SW.CACHE_NAME \/ n = SW.OFFLINE_CACHE).
Proof.
  revert s e. induction names as [|m names IH]; intros s e Hn; simpl in *.
  - split; [done | set_solver].
  - unfold SW.activate_one in Hn at 2. simpl in Hn.
    destruct (bool_decide (m <> SW.CACHE_NAME)) eqn:E1;
      destruct (bool_decide (m <> SW.OFFLINE_CACHE)) eqn:E2; simpl in Hn;
      apply IH in Hn as [Hs Hrest].
    + rewrite Storage.keys_delete in Hs.
      apply list_elem_of_filter in Hs. destruct Hs as [Hne Hs]. split; [done|].
      intros [->|Hin]%elem_of_cons; [done | auto].
    + split; [done|]. intros [->|Hin]%elem_of_cons; [|auto].
      apply bool_decide_eq_false in E2. right. by destruct (decide (m = SW.OFFLINE_CACHE)).
    + split; [done|]. intros [->|Hin]%elem_of_cons; [|auto].
      apply bool_decide_eq_false in E1. left. by destruct (decide (m = SW.CACHE_NAME)).
    + split; [done|]. intros [->|Hin]%elem_of_cons; [|auto].
      apply bool_decide_eq_false in E1. left. by destruct (decide (m = SW.CACHE_NAME)).
Qed.

Lemma activate_fold_match (names : list string) (s : CacheStorage) (e : list Effect)
    (name key : string) :
  name = SW.CACHE_NAME \/ name = SW.OFFLINE_CACHE ->
  cache_match name key (foldl SW.activate_one (s, e) names).1 = cache_match name key s.
Proof.
  intros Hname. revert s e. induction names as [|m names IH]; intros s e; simpl; [done|].
  unfold SW.activate_one at 2. simpl.
  destruct (bool_decide (m <> SW.CACHE_NAME)) eqn:E1;
    destruct (bool_decide (m <> SW.OFFLINE_CACHE)) eqn:E2; simpl; rewrite IH; try done.
  apply bool_decide_eq_true in E1, E2.
  apply Storage.match_delete_ne. destruct Hname; congruence.
Qed.

(** The current and the offline namespace keep every entry through
    activate. *)
Lemma activate_keeps (s : CacheStorage) (name key : string) :
  name = SW.CACHE_NAME \/ name = SW.OFFLINE_CACHE ->
  cache_match name key (caches_after (SW.activate s)) = cache_match name key s.
Proof.
  intros Hname. unfold SW.activate.
  pose proof (activate_fold_match (caches_keys s) s [] name key Hname) as H.
  destruct (foldl SW.activate_one (s, []) (caches_keys s)) as [s' d]. exact H.
Qed.

(** C4. The activate handler always completes, and whatever namespaces
    the storage started with, each one that is left afterwards is the
    current-version namespace or the offline namespace. *)
Theorem activate_evicts (s : CacheStorage) :
  result (SW.activate s) = Returns tt /\
  Forall (fun name => name = SW.CACHE_NAME \/ name = SW.OFFLINE_CACHE)
    (caches_keys (caches_after (SW.activate s))).
Proof.
  unfold SW.activate.
  pose proof (fun n => activate_fold_keys (caches_keys s) s [] n) as H.
  destruct (foldl SW.activate_one (s, []) (caches_keys s)) as [s' d]. simpl in *.
  split; [done|]. apply Forall_forall. intros n Hn.
  destruct (H n Hn) as [Hs Hk]. auto.
Qed.

Example activate_two_namespaces :
  caches_keys (caches_after (SW.activate Sample.two_namespaces)) = [SW.OFFLINE_CACHE].
Proof. vm_compute. reflexivity. Qed.

(** ** message: CLEAR_CACHE *)

Lemma deleted_app (a b : list Effect) : deleted (a ++ b) = deleted a ++ deleted b.
Proof.
  induction a as [|x a IH]; [done|]. destruct x; simpl; by rewrite ?IH.
Qed.

Lemma deleted_map (names : list string) : deleted (map ECachesDelete names) = names.
Proof. induction names as [|n names IH]; simpl; by rewrite ?IH. Qed.

Lemma replies_app (a b : list Effect) : replies (a ++ b) = replies a ++ replies b.
Proof.
  induction a as [|x a IH]; [done|]. destruct x; simpl; by rewrite ?IH.
Qed.

Lemma replies_map_delete (names : list string) : replies (map ECachesDelete names) = [].
Proof. induction names as [|n names IH]; simpl; by rewrite ?IH. Qed.

Lemma clearCache_empties (s : CacheStorage) : (SW.clearCache s).1 = [].
Proof. unfold SW.clearCache. simpl. by apply Storage.delete_all. Qed.

(** C9. On a CLEAR_CACHE message that carries a port, [caches.delete] is
    called on every namespace, the offline one included, the storage is
    left empty, and one reply, [{success: true}], is posted on the port,
    after the deletions. *)
Theorem clear_cache_replies_once (resolve : string -> string) (net : string -> Fetch)
    (data : Js.Value) (ports : list nat) (s : CacheStorage) (p : nat) (rest : list nat) :
  Js.get data "type" = Js.Val (Js.Str "CLEAR_CACHE") ->
  ports = p :: rest ->
  let out := SW.on_message resolve net data ports s in
  let success := Js.Obj [("success", Js.Bool true)] in
  result out = Returns tt /\
  caches_after out = [] /\
  replies (effects out) = [(p, success)] /\
  exists before,
    effects out = before ++ [EPostMessage p success] /\
    deleted before = caches_keys s.
Proof.
  intros Htype ->. unfold SW.on_message. rewrite Htype. simpl.
  pose proof (clearCache_empties s) as Hempty.
  unfold SW.clearCache in *. simpl in *.
  repeat split; [exact Hempty| |].
  - rewrite !replies_app, replies_map_delete. reflexivity.
  - exists (ELog "Message received:"
            :: map ECachesDelete (caches_keys s) ++ [ELog "All caches cleared"]).
    split; [reflexivity|].
    simpl. rewrite deleted_app, deleted_map. apply app_nil_r.
Qed.

Lemma clear_cache_replies_once_witness :
  Js.get (Js.Obj [("type", Js.Str "CLEAR_CACHE")]) "type" = Js.Val (Js.Str "CLEAR_CACHE") /\
  let out := SW.on_message Sample.resolve (Sample.all_but "") (Js.Obj [("type", Js.Str "CLEAR_CACHE")])
               [7%nat] Sample.two_namespaces in
  caches_after out = [] /\
  replies (effects out) = [(7%nat, Js.Obj [("success", Js.Bool true)])] /\
  deleted (effects out) = ["pwa-cache-v1-0-0"; SW.OFFLINE_CACHE].
Proof.
  split; [reflexivity|].
  pose proof (clear_cache_replies_once Sample.resolve (Sample.all_but "")
                (Js.Obj [("type", Js.Str "CLEAR_CACHE")]) [7%nat] Sample.two_namespaces 7%nat []
                eq_refl eq_refl) as H.
  cbv zeta in *. destruct H as (_ & Hs & Hr & _).
  split; [exact Hs|]. split; [exact Hr|]. vm_compute. reflexivity.
Defined.

(** ** fetch: the API strategy *)

Lemma on_fetch_classified (st : SW.Strategy) (resolve : string -> string) (now : string)
    (request : Request) (net : Fetch) (s : CacheStorage) :
  SW.classify request = Some st ->
  SW.on_fetch resolve now request net s = Some (SW.execute st resolve now request net s).
Proof. intros H. unfold SW.on_fetch. by rewrite H. Qed.

Lemma race_lost (net : Fetch) :
  network_fails net -> exists e, SW.race net = Js.Throw e.
Proof.
  destruct net as [t r|t e|]; simpl; intros H; eauto.
  - apply N.leb_gt in H. rewrite H. eauto.
  - destruct (t <=? SW.NETWORK_TIMEOUT)%N; eauto.
Qed.

(** What the [catch] block answers: the cached copy or the offline
    response, and no entry changes. *)
Lemma api_catch (now : string) (request : Request) (net : Fetch) (s : CacheStorage)
    (e : Js.Error) :
  SW.tryNetwork request net (caches_open SW.CACHE_NAME s) = Js.Throw e ->
  result (SW.handleApiRequest now request net s)
  = Returns (Some (default (SW.offlineApiResponse now)
                     (cache_match SW.CACHE_NAME (url request) s))) /\
  forall name key,
    cache_match name key (caches_after (SW.handleApiRequest now request net s))
    = cache_match name key s.
Proof.
  intros H. unfold SW.handleApiRequest. rewrite H, Storage.match_open.
  destruct (cache_match SW.CACHE_NAME (url request) s); simpl;
    (split; [reflexivity | intros; apply Storage.match_open]).
Qed.

Lemma try_lost (request : Request) (net : Fetch) (s : CacheStorage) (e : Js.Error) :
  SW.race net = Js.Throw e -> SW.tryNetwork request net s = Js.Throw e.
Proof. intros H. unfold SW.tryNetwork. by rewrite H. Qed.

(** C2, as the code has it. A GET request under /api/ whose fetch
    resolves within the 5000 ms of the timer with a status in [200,299]
    that the cache accepts (any but 206, no [Vary: *], under an http(s)
    URL) is answered with the network's response, and afterwards the
    current namespace holds that response, so that body, for the
    request's URL. *)
Theorem api_network_success (resolve : string -> string) (now : string)
    (request : Request) (t : N) (r : Response) (s : CacheStorage) :
  SW.classify request = Some SW.API ->
  (t <= SW.NETWORK_TIMEOUT)%N ->
  ok r = true ->
  put_refusal (method request) (url request) r = None ->
  exists out,
    SW.on_fetch resolve now request (Resolves t r) s = Some out /\
    result out = Returns (Some r) /\
    cache_match SW.CACHE_NAME (url request) (caches_after out) = Some r.
Proof.
  intros Hc Ht Hok Hput. rewrite (on_fetch_classified _ _ _ _ _ _ Hc).
  eexists. split; [reflexivity|].
  unfold SW.execute, SW.handleApiRequest, SW.tryNetwork, SW.race, cache_put.
  apply N.leb_le in Ht. rewrite Ht. simpl. rewrite Hok, Hput. simpl.
  split; [reflexivity|].
  apply Storage.match_put_eq, Storage.has_open.
Qed.

(** The scenario of the specification: empty storage, /api/widgets, 200
    with body {id:1} in time. *)
Lemma api_network_success_witness :
  SW.classify Sample.widgets = Some SW.API /\
  (120 <= SW.NETWORK_TIMEOUT)%N /\
  ok Sample.fresh = true /\
  put_refusal (method Sample.widgets) (url Sample.widgets) Sample.fresh = None /\
  exists out,
    SW.on_fetch Sample.resolve Sample.now Sample.widgets (Resolves 120 Sample.fresh) [] = Some out /\
    result out = Returns (Some Sample.fresh) /\
    cache_match SW.CACHE_NAME (url Sample.widgets) (caches_after out) = Some Sample.fresh.
Proof.
  split; [reflexivity|]. split; [by vm_compute|]. split; [reflexivity|].
  split; [reflexivity|].
  apply (api_network_success Sample.resolve Sample.now Sample.widgets 120 Sample.fresh []);
    [reflexivity | by vm_compute | reflexivity | reflexivity].
Defined.

(** C2 as stated fails: 206 is a status in [200,299], but the cache
    refuses a partial response; the awaited put throws inside the [try],
    and the caller gets the offline response while nothing is stored. *)
Lemma api_partial_content_counterexample :
  SW.classify Sample.widgets = Some SW.API /\
  (120 <= SW.NETWORK_TIMEOUT)%N /\
  ok Sample.partial = true /\
  exists out,
    SW.on_fetch Sample.resolve Sample.now Sample.widgets (Resolves 120 Sample.partial) [] = Some out /\
    result out = Returns (Some (SW.offlineApiResponse Sample.now)) /\
    result out <> Returns (Some Sample.partial) /\
    cache_match SW.CACHE_NAME (url Sample.widgets) (caches_after out) = None.
Proof.
  split; [reflexivity|]. split; [by vm_compute|]. split; [reflexivity|].
  eexists. split; [vm_compute; reflexivity|].
  split; [vm_compute; reflexivity|]. split; [vm_compute; discriminate|].
  vm_compute. reflexivity.
Qed.

(** C5, as the code has it. When the timer wins the race the fetch is
    left running but nothing waits for it: whatever it brings later, no
    cache entry changes, and the caller got the cached copy or the
    offline response. *)
Theorem api_late_result_dropped (now : string) (request : Request) (t : N)
    (r : Response) (s : CacheStorage) :
  (SW.NETWORK_TIMEOUT < t)%N ->
  let out := SW.handleApiRequest now request (Resolves t r) s in
  (forall name key, cache_match name key (caches_after out) = cache_match name key s) /\
  result out =
    Returns (Some (default (SW.offlineApiResponse now)
                     (cache_match SW.CACHE_NAME (url request) s))).
Proof.
  intros Ht. destruct (race_lost (Resolves t r) Ht) as [e He].
  destruct (api_catch now request (Resolves t r) s e (try_lost _ _ _ _ He)) as [Hres Hframe].
  by split.
Qed.

Lemma api_late_result_dropped_witness :
  (SW.NETWORK_TIMEOUT < 6000)%N /\
  cache_match SW.CACHE_NAME (url Sample.widgets)
    (caches_after (SW.handleApiRequest Sample.now Sample.widgets (Resolves 6000 Sample.fresh)
                     (Sample.holding Sample.widgets Sample.stale)))
  = Some Sample.stale.
Proof.
  split; [by vm_compute|].
  pose proof (api_late_result_dropped Sample.now Sample.widgets 6000 Sample.fresh
                (Sample.holding Sample.widgets Sample.stale)) as H.
  cbv zeta in H. destruct H as [H _]; [by vm_compute|].
  rewrite H. vm_compute. reflexivity.
Defined.

(** C5 as stated fails: a 200 that arrives one second after the timer
    fired is not written to the cache. *)
Lemma api_late_write_counterexample :
  SW.classify Sample.widgets = Some SW.API /\
  (SW.NETWORK_TIMEOUT < 6000)%N /\
  ok Sample.fresh = true /\
  put_refusal (method Sample.widgets) (url Sample.widgets) Sample.fresh = None /\
  exists out,
    SW.on_fetch Sample.resolve Sample.now Sample.widgets (Resolves 6000 Sample.fresh) [] = Some out /\
    cache_match SW.CACHE_NAME (url Sample.widgets) (caches_after out) = None.
Proof.
  split; [reflexivity|]. split; [by vm_compute|]. split; [reflexivity|].
  split; [reflexivity|].
  eexists. split; [vm_compute; reflexivity|]. vm_compute. reflexivity.
Qed.

(** A fetch that settles exactly when the timer is due still wins. *)
Example api_tie :
  result (SW.handleApiRequest Sample.now Sample.widgets (Resolves 5000 Sample.fresh) [])
  = Returns (Some Sample.fresh).
Proof. vm_compute. reflexivity. Qed.

(** C6. A GET request under /api/ whose fetch is rejected, or has not
    settled when the 5000 ms timer fires, and for which the current
    namespace has no entry, is answered with a response of status 503
    whose body is the JSON text of an object with an error field equal
    to [You are offline] and a timestamp field holding the time of the
    failure. *)
Theorem api_offline_response (resolve : string -> string) (now : string)
    (request : Request) (net : Fetch) (s : CacheStorage) :
  SW.classify request = Some SW.API ->
  network_fails net ->
  cache_match SW.CACHE_NAME (url request) s = None ->
  exists out response fields,
    SW.on_fetch resolve now request net s = Some out /\
    result out = Returns (Some response) /\
    status response = 503 /\
    Js.JSON_stringify (Js.Obj fields) = Some (body response) /\
    Js.assoc "error" fields = Js.Str "You are offline" /\
    Js.assoc "timestamp" fields = Js.Str now.
Proof.
  intros Hc Hnet Hmiss. rewrite (on_fetch_classified _ _ _ _ _ _ Hc).
  destruct (race_lost net Hnet) as [e He].
  destruct (api_catch now request net s e (try_lost _ _ _ _ He)) as [Hres _].
  rewrite Hmiss in Hres.
  exists (SW.handleApiRequest now request net s), (SW.offlineApiResponse now),
    [("error", Js.Str "You are offline"); ("timestamp", Js.Str now); ("cached", Js.Bool true)].
  split; [reflexivity|]. split; [exact Hres|]. repeat split; reflexivity.
Qed.

Lemma api_offline_response_witness :
  SW.classify Sample.widgets = Some SW.API /\
  network_fails NeverSettles /\
  cache_match SW.CACHE_NAME (url Sample.widgets) [] = None /\
  exists out response fields,
    SW.on_fetch Sample.resolve Sample.now Sample.widgets NeverSettles [] = Some out /\
    result out = Returns (Some response) /\
    status response = 503 /\
    Js.JSON_stringify (Js.Obj fields) = Some (body response) /\
    Js.assoc "error" fields = Js.Str "You are offline" /\
    Js.assoc "timestamp" fields = Js.Str Sample.now.
Proof.
  split; [reflexivity|]. split; [exact I|]. split; [reflexivity|].
  apply (api_offline_response Sample.resolve Sample.now Sample.widgets NeverSettles []);
    [reflexivity | exact I | reflexivity].
Defined.

(** The text of the offline body. *)
Example offline_body_text :
  let q := String Js.dquote "" in
  body (SW.offlineApiResponse Sample.now) =
  "{" +:+ q +:+ "error" +:+ q +:+ ":" +:+ q +:+ "You are offline" +:+ q +:+ ","
      +:+ q +:+ "timestamp" +:+ q +:+ ":" +:+ q +:+ Sample.now +:+ q +:+ ","
      +:+ q +:+ "cached" +:+ q +:+ ":true}".
Proof. vm_compute. reflexivity. Qed.

(** ** fetch: the ASSET strategy *)

Lemma put_detached_accepted (name method key : string) (r : Response) (s : CacheStorage) :
  put_refusal method key r = None ->
  put_detached name method key r s = (cache_write name key r s, []).
Proof. intros H. unfold put_detached, cache_put. by rewrite H. Qed.

Lemma cacheIfOk_accepted (request : Request) (r : Response) (s : CacheStorage) :
  ok r = true ->
  put_refusal (method request) (url request) r = None ->
  SW.cacheIfOk request r s = (cache_write SW.CACHE_NAME (url request) r s, []).
Proof. intros Hok H. unfold SW.cacheIfOk. rewrite Hok. by apply put_detached_accepted. Qed.


(** C7, as the code has it. A GET request under /assets/ but not under
    /assets/images/: with a cached entry, the answer is that entry, not
    what the network sends, and once the fetch has resolved with a
    status in [200,299] that the cache accepts (any but 206, no
    [Vary: *], under an http(s) URL) the cache holds the fresh response;
    without a cached entry the answer is the outcome of the fetch
    itself, its response when it resolves (stored under the same
    conditions) and a rejection when it is rejected. *)
Theorem asset_stale_while_revalidate (resolve : string -> string) (now : string)
    (request : Request) (net : Fetch) (s : CacheStorage) :
  SW.classify request = Some SW.ASSET ->
  exists out,
    SW.on_fetch resolve now request net s = Some out /\
    (forall cached, cache_match SW.CACHE_NAME (url request) s = Some cached ->
       result out = Returns (Some cached) /\
       forall t r, net = Resolves t r -> ok r = true ->
         put_refusal (method request) (url request) r = None ->
         cache_match SW.CACHE_NAME (url request) (caches_after out) = Some r) /\
    (cache_match SW.CACHE_NAME (url request) s = None ->
       match net with
       | Resolves _ r =>
           result out = Returns (Some r) /\
           (ok r = true ->
            put_refusal (method request) (url request) r = None ->
            cache_match SW.CACHE_NAME (url request) (caches_after out) = Some r)
       | Rejects _ _ => exists e, result out = Throws e
       | NeverSettles => result out = Pending
       end).
Proof.
  intros Hc. rewrite (on_fetch_classified _ _ _ _ _ _ Hc).
  eexists. split; [reflexivity|].
  unfold SW.execute, SW.handleAssetRequest. rewrite Storage.match_open.
  split.
  - intros cached Hhit. rewrite Hhit.
    destruct net as [t r|t e|]; simpl.
    + destruct (SW.cacheIfOk request r _) as [s' u] eqn:E. split; [reflexivity|].
      intros t' r' [= <- <-] Hok Hput. rewrite cacheIfOk_accepted in E by done.
      injection E as <- <-. apply Storage.match_put_eq, Storage.has_open.
    + split; [reflexivity | intros ? ? [=]].
    + split; [reflexivity | intros ? ? [=]].
  - intros Hmiss. rewrite Hmiss.
    destruct net as [t r|t e|]; simpl; eauto.
    destruct (SW.cacheIfOk request r _) as [s' u] eqn:E. split; [reflexivity|].
    intros Hok Hput. rewrite cacheIfOk_accepted in E by done.
    injection E as <- <-. apply Storage.match_put_eq, Storage.has_open.
Qed.

Lemma asset_stale_while_revalidate_witness :
  SW.classify Sample.styles = Some SW.ASSET /\
  exists out,
    SW.on_fetch Sample.resolve Sample.now Sample.styles (Resolves 30 Sample.fresh)
      (Sample.holding Sample.styles Sample.stale) = Some out /\
    result out = Returns (Some Sample.stale) /\
    cache_match SW.CACHE_NAME (url Sample.styles) (caches_after out) = Some Sample.fresh.
Proof.
  split; [reflexivity|].
  destruct (asset_stale_while_revalidate Sample.resolve Sample.now Sample.styles
              (Resolves 30 Sample.fresh) (Sample.holding Sample.styles Sample.stale) eq_refl)
    as (out & Hout & Hhit & _).
  destruct (Hhit Sample.stale eq_refl) as [Hres Hput].
  exists out. split; [exact Hout|]. split; [exact Hres|].
  exact (Hput 30%N Sample.fresh eq_refl eq_refl eq_refl).
Defined.

(** C7 as stated fails: 206 is a status in [200,299], but the put of a
    partial response, which nobody awaits, is refused, and the cache
    keeps the stale entry. *)
Lemma asset_partial_content_counterexample :
  SW.classify Sample.styles = Some SW.ASSET /\
  ok Sample.partial = true /\
  exists out,
    SW.on_fetch Sample.resolve Sample.now Sample.styles (Resolves 30 Sample.partial)
      (Sample.holding Sample.styles Sample.stale) = Some out /\
    cache_match SW.CACHE_NAME (url Sample.styles) (caches_after out) = Some Sample.stale /\
    cache_match SW.CACHE_NAME (url Sample.styles) (caches_after out) <> Some Sample.partial.
Proof.
  split; [reflexivity|]. split; [reflexivity|].
  eexists. split; [vm_compute; reflexivity|].
  split; [vm_compute; reflexivity|]. vm_compute. discriminate.
Qed.

(** ** fetch: the IMAGE strategy *)

Lemma event_unbound :
  Js.GetValue SW.handleImageRequest_locals SW.declarations SW.ServiceWorkerGlobalScope "event"
  = Js.Throw (Js.ReferenceError "event is not defined").
Proof. vm_compute. reflexivity. Qed.

(** C1, what the code does. For a GET request under /assets/images/
    that has an entry in the current namespace, the promise of
    [handleImageRequest] is rejected with a ReferenceError: [event] is
    not a name the function can resolve. No fetch has been issued and no
    cache entry has changed. *)
Theorem image_hit_throws (resolve : string -> string) (now : string)
    (request : Request) (net : Fetch) (s : CacheStorage) (cached : Response) :
  SW.classify request = Some SW.IMAGE ->
  cache_match SW.CACHE_NAME (url request) s = Some cached ->
  exists out,
    SW.on_fetch resolve now request net s = Some out /\
    result out = Throws (Js.ReferenceError "event is not defined") /\
    effects out = [] /\
    forall name key, cache_match name key (caches_after out) = cache_match name key s.
Proof.
  intros Hc Hhit. rewrite (on_fetch_classified _ _ _ _ _ _ Hc).
  eexists. split; [reflexivity|].
  unfold SW.execute, SW.handleImageRequest.
  rewrite Storage.match_open, Hhit, event_unbound. simpl.
  repeat split. intros. apply Storage.match_open.
Qed.

Lemma image_hit_throws_witness :
  SW.classify Sample.logo = Some SW.IMAGE /\
  cache_match SW.CACHE_NAME (url Sample.logo) (Sample.holding Sample.logo Sample.stale)
    = Some Sample.stale /\
  exists out,
    SW.on_fetch Sample.resolve Sample.now Sample.logo (Resolves 30 Sample.fresh)
      (Sample.holding Sample.logo Sample.stale) = Some out /\
    result out = Throws (Js.ReferenceError "event is not defined") /\
    effects out = [].
Proof.
  split; [reflexivity|]. split; [reflexivity|].
  destruct (image_hit_throws Sample.resolve Sample.now Sample.logo (Resolves 30 Sample.fresh)
              (Sample.holding Sample.logo Sample.stale) Sample.stale eq_refl eq_refl)
    as (out & Hout & Hres & Heff & _).
  exists out. auto.
Defined.

(** On a miss with the fetch rejected the answer is whatever
    [caches.match] finds for the fallback image: nothing, when it was
    never stored. *)
Example image_miss_no_fallback :
  result (SW.handleImageRequest Sample.resolve Sample.logo
            (Rejects 10 (Js.TypeError "Failed to fetch")) [])
  = Returns None.
Proof. vm_compute. reflexivity. Qed.

(** ** fetch: responses whose status is not in [200,299] *)




(** A 404 is answered as it is by each strategy that answers from the
    network, and the stale-while-revalidate strategy serves its cached
    entry whatever the status the network sends, 200 or 404. *)
Example not_found_passes :
  result (SW.handleApiRequest Sample.now Sample.widgets (Resolves 30 Sample.missing) [])
    = Returns (Some Sample.missing) /\
  result (SW.handleAssetRequest Sample.styles (Resolves 30 Sample.missing) [])
    = Returns (Some Sample.missing) /\
  result (SW.handleAssetRequest Sample.styles (Resolves 30 Sample.missing)
            (Sample.holding Sample.styles Sample.stale))
    = Returns (Some Sample.stale) /\
  result (SW.handleAssetRequest Sample.styles (Resolves 30 Sample.fresh)
            (Sample.holding Sample.styles Sample.stale))
    = Returns (Some Sample.stale).
Proof. vm_compute. repeat split. Qed.

(** ** install *)

Lemma names_differ : SW.CACHE_NAME <> SW.OFFLINE_CACHE.
Proof. by vm_compute. Qed.

Lemma put_all_other (name name' key : string) (entries : list (string * Fetch))
    (s : CacheStorage) :
  name' <> name ->
  cache_match name' key (SW.put_all name entries s) = cache_match name' key s.
Proof.
  intros Hne. revert s. induction entries as [|[u f] entries IH]; intros s; simpl; [done|].
  destruct f; rewrite IH; [|done|done].
  apply Storage.match_put_ne. by left.
Qed.

(** [cache.addAll] on one namespace leaves the others alone. *)
Lemma addAll_other (resolve : string -> string) (net : string -> Fetch)
    (name name' key : string) (urls : list string) (s : CacheStorage) :
  name' <> name ->
  cache_match name' key (SW.cache_addAll resolve net name urls s).2 = cache_match name' key s.
Proof.
  intros Hne. unfold SW.cache_addAll.
  destruct (List.find _ _); [done|]. destruct (existsb _ _); [done|].
  destruct (bool_decide _); [|done]. by apply put_all_other.
Qed.

(** One failed fetch rejects [cache.addAll] and nothing is stored. *)
Lemma addAll_failed (resolve : string -> string) (net : string -> Fetch)
    (name : string) (urls : list string) (s : CacheStorage) :
  existsb (fun u => SW.fetch_failed (net (resolve u))) urls = true ->
  exists e, SW.cache_addAll resolve net name urls s = (Throws e, s).
Proof.
  intros H. unfold SW.cache_addAll.
  destruct (List.find _ _) as [e|] eqn:E; [eauto|]. exfalso.
  apply existsb_exists in H as (u & Hin & Hu).
  assert (In (resolve u, net (resolve u))
            (map (fun u => (resolve u, net (resolve u))) urls)) as Hin'
    by (apply in_map_iff; eauto).
  apply (find_none _ _ E) in Hin'. unfold SW.addAll_refused in Hin'. simpl in Hin'.
  rewrite Hu in Hin'. by destruct (http_url (resolve u)).
Qed.

(** C3, what the code does. When a fetch of the install manifest fails
    (it is rejected, or its response is not ok), nothing is stored in the
    current-version namespace, the listener logs [Installation failed:],
    and the promise it handed to [event.waitUntil] is fulfilled: the
    install is reported as successful. *)
Theorem install_swallows_failure (resolve : string -> string) (net : string -> Fetch)
    (s : CacheStorage) :
  existsb (fun u => SW.fetch_failed (net (resolve u))) SW.PRECACHE_ASSETS = true ->
  let out := SW.install resolve net s in
  result out = Returns tt /\
  last (effects out) = Some (EError "Installation failed:") /\
  forall key, cache_match SW.CACHE_NAME key (caches_after out) = cache_match SW.CACHE_NAME key s.
Proof.
  intros Hfail. unfold SW.install.
  destruct (addAll_failed resolve net SW.CACHE_NAME SW.PRECACHE_ASSETS
              (caches_open SW.OFFLINE_CACHE (caches_open SW.CACHE_NAME s)) Hfail) as [e He].
  rewrite He.
  pose proof (fun key => addAll_other resolve net SW.OFFLINE_CACHE SW.CACHE_NAME key
                ["/offline.html"] (caches_open SW.OFFLINE_CACHE (caches_open SW.CACHE_NAME s))
                names_differ) as Hother.
  destruct (SW.cache_addAll resolve net SW.OFFLINE_CACHE ["/offline.html"] _) as [offline s'].
  cbn [SW.all2 result effects caches_after]. split; [reflexivity|]. split.
  - rewrite app_nil_l, app_assoc. apply last_snoc.
  - intros key. simpl in Hother. by rewrite Hother, !Storage.match_open.
Qed.

Lemma install_swallows_failure_witness :
  existsb (fun u => SW.fetch_failed (Sample.all_but "/assets/fonts/roboto.woff2" (Sample.resolve u)))
    SW.PRECACHE_ASSETS = true /\
  result (SW.install Sample.resolve (Sample.all_but "/assets/fonts/roboto.woff2") []) = Returns tt /\
  cache_match SW.CACHE_NAME (Sample.resolve "/index.html")
    (caches_after (SW.install Sample.resolve (Sample.all_but "/assets/fonts/roboto.woff2") []))
  = None.
Proof.
  split; [reflexivity|].
  pose proof (install_swallows_failure Sample.resolve
                (Sample.all_but "/assets/fonts/roboto.woff2") [] eq_refl) as H.
  cbv zeta in H. destruct H as (Hres & _ & Hframe).
  split; [exact Hres|]. rewrite Hframe. reflexivity.
Defined.

(** With every fetch of the manifest answered 200 the install fills
    both namespaces. *)
Example install_all_ok :
  let out := SW.install Sample.resolve (Sample.all_but "/nothing") [] in
  result out = Returns tt /\
  caches_keys (caches_after out) = [SW.CACHE_NAME; SW.OFFLINE_CACHE] /\
  cache_match SW.CACHE_NAME (Sample.resolve "/index.html") (caches_after out)
    = Some (Sample.respond 200 (Sample.resolve "/index.html")) /\
  cache_match SW.OFFLINE_CACHE (Sample.resolve "/offline.html") (caches_after out)
    = Some (Sample.respond 200 (Sample.resolve "/offline.html")).
Proof. vm_compute. repeat split. Qed.

(** ** push and message: input the listeners do not expect *)

Lemma get_field (data : Js.Value) (k : string) :
  data <> Js.Null -> data <> Js.Undefined -> Js.get data k = Js.Val (field data k).
Proof. by destruct data. Qed.

Lemma unknown_type (type : Js.Value) :
  known_type type = false ->
  Js.is_string type "SKIP_WAITING" = false /\
  Js.is_string type "GET_CACHE_INFO" = false /\
  Js.is_string type "CLEAR_CACHE" = false /\
  Js.is_string type "UPDATE_ASSETS" = false.
Proof.
  unfold known_type. intros H.
  repeat (apply orb_false_elim in H as [H ?]). auto.
Qed.

(** C10, as the code has it. A push event without data does nothing. A
    payload that parses to a JSON value other than null gets one
    notification in which every field among title, body, icon, data,
    actions, tag, requireInteraction, silent and vibrate that is missing
    (or falsy) has its fixed value, a missing timestamp is the current
    time and the image is passed on as it is, missing or not. A message
    whose data is neither null nor undefined and whose type is none of
    the four the listener knows has no effect. The listeners catch
    nothing: the error of a payload that is not JSON, or of reading a
    property of a null payload or of null message data, leaves them. *)
Theorem unexpected_input (now : Z) (s : CacheStorage) :
  SW.on_push now None s = mkOutcome (Returns tt) s [ELog "Push received"] /\
  (forall data, data <> Js.Null -> data <> Js.Undefined ->
     exists title options,
       SW.on_push now (Some (Js.Val data)) s
       = mkOutcome (Returns tt) s
           [ELog "Push received"; EShowNotification title (Js.Obj options)] /\
       (Js.truthy (field data "title") = false -> title = Js.Str "My PWA") /\
       Forall (fun d => Js.truthy (field data d.1) = false -> Js.assoc d.1 options = d.2)
         push_defaults /\
       (Js.truthy (field data "timestamp") = false ->
        Js.assoc "timestamp" options = Js.Num now) /\
       Js.assoc "image" options = field data "image") /\
  (forall resolve net data ports type,
     Js.get data "type" = Js.Val type -> known_type type = false ->
     SW.on_message resolve net data ports s
     = mkOutcome (Returns tt) s [ELog "Message received:"]) /\
  (forall e, result (SW.on_push now (Some (Js.Throw e)) s) = Throws e) /\
  (exists e, result (SW.on_push now (Some (Js.Val Js.Null)) s) = Throws e) /\
  (forall resolve net data ports, data = Js.Null \/ data = Js.Undefined ->
     exists e, result (SW.on_message resolve net data ports s) = Throws e).
Proof.
  split; [reflexivity|]. split; [|split; [|split; [|split]]].
  - intros data Hnull Hundef.
    unfold SW.on_push, SW.notification. simpl.
    rewrite !(get_field data _ Hnull Hundef). simpl.
    eexists _, _. split; [reflexivity|].
    unfold Js.or_else.
    split; [by intros ->|]. split; [|split; [by intros ->|reflexivity]].
    unfold push_defaults. repeat constructor; simpl; by intros ->.
  - intros resolve net data ports type Hget Hunknown.
    destruct (unknown_type type Hunknown) as (H1 & H2 & H3 & H4).
    unfold SW.on_message. by rewrite Hget, H1, H2, H3, H4.
  - reflexivity.
  - eexists. reflexivity.
  - intros resolve net data ports [->| ->]; eexists; reflexivity.
Qed.

Lemma unexpected_input_witness :
  (exists title options,
     SW.on_push 1767225600000 (Some (Js.Val (Js.Obj [("title", Js.Str "Hi")]))) []
     = mkOutcome (Returns tt) []
         [ELog "Push received"; EShowNotification title (Js.Obj options)] /\
     Js.assoc "timestamp" options = Js.Num 1767225600000 /\
     Js.assoc "image" options = Js.Undefined) /\
  SW.on_message Sample.resolve (Sample.all_but "") (Js.Obj [("type", Js.Str "PING")]) []
    Sample.two_namespaces
  = mkOutcome (Returns tt) Sample.two_namespaces [ELog "Message received:"].
Proof.
  destruct (unexpected_input 1767225600000 []) as (_ & Hpush & _).
  destruct (unexpected_input 1767225600000 Sample.two_namespaces) as (_ & _ & Hmsg & _).
  split.
  - destruct (Hpush (Js.Obj [("title", Js.Str "Hi")]))
      as (title & options & Heq & _ & _ & Htime & Himage);
      [discriminate | discriminate |].
    exists title, options. split; [exact Heq|]. split; [exact (Htime eq_refl) | exact Himage].
  - apply (Hmsg Sample.resolve (Sample.all_but "") (Js.Obj [("type", Js.Str "PING")]) []
             (Js.Str "PING")); reflexivity.
Defined.

Example push_title_only :
  SW.on_push 1767225600000 (Some (Js.Val (Js.Obj [("title", Js.Str "Hi")]))) []
  = mkOutcome (Returns tt) []
      [ELog "Push received";
       EShowNotification (Js.Str "Hi")
         (Js.Obj [("body", Js.Str "New notification");
                  ("icon", Js.Str "/assets/images/icon-192.png");
                  ("badge", Js.Str "/assets/images/badge-72.png");
                  ("image", Js.Undefined);
                  ("data", Js.Obj []);
                  ("actions", Js.Arr []);
                  ("tag", Js.Str "default");
                  ("requireInteraction", Js.Bool false);
                  ("silent", Js.Bool false);
                  ("timestamp", Js.Num 1767225600000);
                  ("vibrate", Js.Arr [Js.Num 200; Js.Num 100; Js.Num 200])])].
Proof. vm_compute. reflexivity. Qed.

(** C10 as stated fails: the SyntaxError of a push payload that is not
    JSON leaves the push listener, the TypeError of a message without
    data leaves the message listener, and for the empty payload the
    image has no default and the timestamp is the clock's. *)
Lemma unexpected_input_counterexample :
  result (SW.on_push 0 (Some (Js.Throw (Js.SyntaxError "Unexpected token h in JSON at position 0"))) [])
  = Throws (Js.SyntaxError "Unexpected token h in JSON at position 0") /\
  result (SW.on_message Sample.resolve (Sample.all_but "") Js.Null [] [])
  = Throws (Js.TypeError "Cannot read properties of null (reading 'type')") /\
  effects (SW.on_push 1 (Some (Js.Val (Js.Obj []))) [])
  <> effects (SW.on_push 2 (Some (Js.Val (Js.Obj []))) []).
Proof.
  split; [reflexivity|]. split; [vm_compute; reflexivity|]. vm_compute. discriminate.
Qed.

(** ** More on the cache storage *)

Lemma match_some_has (name key : string) (s : CacheStorage) :
  is_Some (cache_match name key s) -> caches_has name s = true.
Proof.
  destruct (caches_has name s) eqn:E; [done|].
  rewrite (Storage.match_absent _ _ _ E). by intros [? ?].
Qed.

Lemma has_put (name name' key : string) (r : Response) (s : CacheStorage) :
  caches_has name' (cache_write name key r s) = caches_has name' s.
Proof.
  induction s as [|[n c] s IH]; simpl; [done|].
  destruct (decide (n = name)); simpl; [done|].
  destruct (decide (n = name')); [done | apply IH].
Qed.

(** [cache.put] never removes an entry. *)
Lemma put_keeps (name key name' key' : string) (r : Response) (s : CacheStorage) :
  is_Some (cache_match name' key' s) ->
  is_Some (cache_match name' key' (cache_write name key r s)).
Proof.
  intros H. destruct (decide (name' = name /\ key' = key)) as [[-> ->]|Hne].
  - rewrite Storage.match_put_eq; [done | by eapply match_some_has].
  - rewrite Storage.match_put_ne; [done|].
    destruct (decide (name' = name)); [right | left]; naive_solver.
Qed.



(** ** fetch: answers without the network *)

(** The API strategy always answers with a response, however the fetch
    ends, even when it never does. *)
Theorem api_always_answers (now : string) (request : Request) (net : Fetch)
    (s : CacheStorage) :
  exists r, result (SW.handleApiRequest now request net s) = Returns (Some r).
Proof.
  unfold SW.handleApiRequest.
  destruct (SW.tryNetwork _ _ _) as [[response s']|e]; [eauto|].
  destruct (cache_match _ _ _); eauto.
Qed.

(** No other strategy has a timer: where it needs the network (HTML and
    DEFAULT always, IMAGE and ASSET without a cached entry) a fetch that
    never settles leaves the caller without an answer. *)
Theorem no_timeout_outside_api (st : SW.Strategy) (resolve : string -> string)
    (now : string) (request : Request) (t : N) (s : CacheStorage) :
  st <> SW.API ->
  answers_from_network st request t s = true ->
  result (SW.execute st resolve now request NeverSettles s) = Pending.
Proof.
  intros Hst Hnet. destruct st; simpl in *; try done.
  - unfold SW.handleImageRequest. rewrite Storage.match_open.
    by destruct (cache_match SW.CACHE_NAME (url request) s).
  - unfold SW.handleAssetRequest. rewrite Storage.match_open.
    by destruct (cache_match SW.CACHE_NAME (url request) s).
Qed.

Lemma no_timeout_outside_api_witness :
  SW.HTML <> SW.API /\
  answers_from_network SW.HTML Sample.page 0 [] = true /\
  result (SW.execute SW.HTML Sample.resolve Sample.now Sample.page NeverSettles []) = Pending.
Proof.
  split; [discriminate|]. split; [reflexivity|].
  apply (no_timeout_outside_api SW.HTML Sample.resolve Sample.now Sample.page 0 []);
    [discriminate | reflexivity].
Defined.

(** What a strategy other than IMAGE answered from the network with a
    status in [200,299] that the cache accepts, it answers again for the
    same request once the network is down. *)
Theorem offline_replay (st : SW.Strategy) (resolve : string -> string) (now now' : string)
    (request : Request) (t t' : N) (r : Response) (e : Js.Error) (s : CacheStorage) :
  st <> SW.IMAGE ->
  (st = SW.API -> (t <= SW.NETWORK_TIMEOUT)%N) ->
  ok r = true ->
  put_refusal (method request) (url request) r = None ->
  let s' := caches_after (SW.execute st resolve now request (Resolves t r) s) in
  result (SW.execute st resolve now' request (Rejects t' e) s') = Returns (Some r).
Proof.
  intros Hst Ht Hok Hacc.
  assert (cache_match SW.CACHE_NAME (url request)
            (cache_write SW.CACHE_NAME (url request) r (caches_open SW.CACHE_NAME s)) = Some r)
    as Hput by apply Storage.match_put_eq, Storage.has_open.
  set (s1 := cache_write SW.CACHE_NAME (url request) r (caches_open SW.CACHE_NAME s)) in *.
  assert (caches_after (SW.execute st resolve now request (Resolves t r) s) = s1) as ->.
  { destruct st; simpl; try done.
    - unfold SW.handleApiRequest, SW.tryNetwork, SW.race, cache_put.
      apply N.leb_le in Ht; [|done]. rewrite Ht. simpl. by rewrite Hok, Hacc.
    - unfold SW.handleAssetRequest. simpl. rewrite cacheIfOk_accepted by done.
      by destruct (cache_match SW.CACHE_NAME (url request) (caches_open SW.CACHE_NAME s)).
    - unfold SW.handleHtmlRequest. rewrite Hok. by rewrite put_detached_accepted.
    - unfold SW.networkFirstWithCache. rewrite Hok. by rewrite put_detached_accepted. }
  destruct st; simpl; try done.
  - destruct (api_catch now' request (Rejects t' e) s1
                (if (t' <=? SW.NETWORK_TIMEOUT)%N then e else Js.PlainError "Network timeout"))
      as [Hres _].
    + unfold SW.tryNetwork, SW.race. by destruct (t' <=? SW.NETWORK_TIMEOUT)%N.
    + by rewrite Hres, Hput.
  - unfold SW.handleAssetRequest. by rewrite Storage.match_open, Hput.
  - unfold SW.handleHtmlRequest. by rewrite Storage.match_open, Hput.
  - unfold SW.networkFirstWithCache. by rewrite Storage.match_open, Hput.
Qed.

Lemma offline_replay_witness :
  SW.HTML <> SW.IMAGE /\
  ok Sample.fresh = true /\
  put_refusal (method Sample.page) (url Sample.page) Sample.fresh = None /\
  result (SW.execute SW.HTML Sample.resolve Sample.now Sample.page
            (Rejects 9 (Js.TypeError "Failed to fetch"))
            (caches_after (SW.execute SW.HTML Sample.resolve Sample.now Sample.page
                             (Resolves 80 Sample.fresh) [])))
  = Returns (Some Sample.fresh).
Proof.
  split; [discriminate|]. split; [reflexivity|]. split; [reflexivity|].
  apply (offline_replay SW.HTML Sample.resolve Sample.now Sample.now Sample.page 80 9
           Sample.fresh (Js.TypeError "Failed to fetch") []);
    [discriminate | discriminate | reflexivity | reflexivity].
Defined.

(** ** install: what a run stores *)

Lemma has_open_other (name name' : string) (s : CacheStorage) :
  caches_has name s = true -> caches_has name (caches_open name' s) = true.
Proof.
  intros H. unfold caches_open. destruct (caches_has name' s); [done|].
  by rewrite Storage.has_app, H.
Qed.

Lemma storable_accepted (key : string) (f : Fetch) :
  storable key f = true ->
  exists t r, f = Resolves t r /\ ok r = true /\ put_refusal "GET" key r = None.
Proof.
  destruct f as [t r| |]; simpl; try done.
  destruct (ok r) eqn:Hok; [|done].
  destruct (put_refusal "GET" key r) eqn:Hp; [done|]. intros _. by exists t, r.
Qed.

Lemma accepted_http (method key : string) (r : Response) :
  put_refusal method key r = None -> http_url key = true.
Proof. unfold put_refusal. by destruct (http_url key). Qed.

Lemma storable_not_refused (key : string) (f : Fetch) :
  storable key f = true -> SW.addAll_refused (key, f) = false.
Proof.
  intros (t & r & -> & Hok & Hacc)%storable_accepted.
  unfold SW.addAll_refused. simpl. by rewrite (accepted_http _ _ _ Hacc), Hok, Hacc.
Qed.

Lemma not_storable (key : string) (f : Fetch) :
  storable key f = false ->
  SW.addAll_refused (key, f) = true \/ SW.fetch_pending f = true.
Proof.
  unfold SW.addAll_refused. destruct f as [t r| |]; simpl; [|intros _; left|by right].
  - destruct (ok r); simpl; [|intros _; left; by rewrite orb_true_r].
    destruct (put_refusal "GET" key r); [intros _; left; by rewrite orb_true_r | done].
  - by rewrite orb_true_r.
Qed.

Lemma has_put_all (name name' : string) (entries : list (string * Fetch)) (s : CacheStorage) :
  caches_has name' (SW.put_all name entries s) = caches_has name' s.
Proof.
  revert s. induction entries as [|[u f] entries IH]; intros s; simpl; [done|].
  destruct f; rewrite IH; [apply has_put | done | done].
Qed.

(** Entries that all resolved, each with what the network gives for its
    key: afterwards a key of the list holds the network's response and
    every other entry is as before. *)
Lemma put_all_match (net : string -> Fetch) (name name' key : string)
    (entries : list (string * Fetch)) (s : CacheStorage) :
  Forall (fun e => storable e.1 e.2 = true /\ e.2 = net e.1) entries ->
  caches_has name s = true ->
  cache_match name' key (SW.put_all name entries s) =
  if decide (name' = name /\ key ∈ entries.*1) then response_of (net key)
  else cache_match name' key s.
Proof.
  intros Hall. revert s. induction Hall as [|[k f] entries [Hk Hnet] Hall IH]; intros s Hs.
  - simpl. case_decide as H; [|done]. destruct H as [_ H]. by apply elem_of_nil in H.
  - simpl in *. destruct f as [t r| |]; try done.
    rewrite IH by (by rewrite has_put).
    destruct (decide (name' = name /\ key ∈ entries.*1)) as [[Hn Hin]|Hout];
      case_decide as Hd; try done.
    + destruct Hd. split; [done | by apply list_elem_of_further].
    + destruct Hd as [Hn Hin]. apply elem_of_cons in Hin. destruct Hin as [->|Hin].
      * subst name'. rewrite Storage.match_put_eq by done. by rewrite <- Hnet.
      * by destruct Hout.
    + rewrite Storage.match_put_ne; [done|].
      destruct (decide (name' = name)) as [->|]; [right | by left].
      intros ->. destruct Hd. split; [done | apply list_elem_of_here].
Qed.

Lemma addAll_goes_through (resolve : string -> string) (net : string -> Fetch)
    (name : string) (urls : list string) (s : CacheStorage) :
  all_ok resolve net urls = true ->
  SW.cache_addAll resolve net name urls s
  = (Returns tt,
     SW.put_all name (map (fun u => (resolve u, net (resolve u))) urls) s).
Proof.
  intros H. unfold SW.cache_addAll.
  unfold all_ok in H. apply andb_prop in H as [H Hnd].
  assert (forall e, In e (map (fun u => (resolve u, net (resolve u))) urls) ->
                    storable e.1 e.2 = true) as Hall.
  { intros e (u & <- & Hu)%in_map_iff.
    rewrite forallb_forall in H. by apply H. }
  destruct (List.find _ _) as [e|] eqn:E.
  - apply find_some in E as [Hin Hf]. apply Hall in Hin.
    destruct e as [k f]. simpl in Hin. by rewrite storable_not_refused in Hf.
  - destruct (existsb _ _) eqn:E'; [|by rewrite Hnd].
    apply existsb_exists in E' as (e & Hin & Hp). apply Hall in Hin.
    destruct e as [k f]. simpl in *.
    destruct (storable_accepted _ _ Hin) as (t & r & -> & _). done.
Qed.

Lemma addAll_given_up (resolve : string -> string) (net : string -> Fetch)
    (name : string) (urls : list string) (s : CacheStorage) :
  all_ok resolve net urls = false ->
  (SW.cache_addAll resolve net name urls s).2 = s.
Proof.
  intros H. unfold SW.cache_addAll.
  destruct (List.find _ _) as [e|] eqn:E; [done|].
  destruct (existsb _ _) eqn:E'; [done|].
  destruct (bool_decide (NoDup (map resolve urls))) eqn:Hnd; [|done]. exfalso.
  unfold all_ok in H. rewrite Hnd, andb_true_r in H.
  apply not_true_iff_false in H. apply H.
  apply forallb_forall. intros u Hu.
  assert (In (resolve u, net (resolve u))
            (map (fun u => (resolve u, net (resolve u))) urls)) as Hin
    by (apply in_map_iff; eauto).
  destruct (storable (resolve u) (net (resolve u))) eqn:Es; [done|].
  destruct (not_storable _ _ Es) as [Hr|Hp].
  - pose proof (find_none _ _ E _ Hin) as Hf. congruence.
  - assert (existsb (fun e : string * Fetch => SW.fetch_pending e.2)
              (map (fun u => (resolve u, net (resolve u))) urls) = true) as Hp'
      by (apply existsb_exists; eauto).
    congruence.
Qed.

(** What [cache.addAll] leaves behind: when it went through, each URL
    holds the network's response;
    everything else, and everything when one of them was not, is as
    before. *)
Lemma addAll_match (resolve : string -> string) (net : string -> Fetch)
    (name name' key : string) (urls : list string) (s : CacheStorage) :
  caches_has name s = true ->
  cache_match name' key (SW.cache_addAll resolve net name urls s).2 =
  if decide (all_ok resolve net urls = true /\ name' = name /\ key ∈ map resolve urls)
  then response_of (net key)
  else cache_match name' key s.
Proof.
  intros Hs. destruct (all_ok resolve net urls) eqn:E.
  - rewrite addAll_goes_through by done. simpl.
    assert (Forall (fun e : string * Fetch => storable e.1 e.2 = true /\ e.2 = net e.1)
              (map (fun u => (resolve u, net (resolve u))) urls)) as Hall.
    { apply Forall_forall. intros e He. apply list_elem_of_In, in_map_iff in He.
      destruct He as (u & <- & Hu). split; [|done].
      pose proof E as E0. unfold all_ok in E0. apply andb_prop in E0 as [E0 _].
      rewrite forallb_forall in E0. by apply E0. }
    rewrite (put_all_match net _ _ _ _ _ Hall Hs).
    assert ((map (fun u => (resolve u, net (resolve u))) urls).*1 = map resolve urls) as ->
      by (clear; induction urls as [|u urls IH]; [done | simpl; f_equal; exact IH]).
    repeat case_decide; try done; exfalso; tauto.
  - rewrite addAll_given_up by done. case_decide as H; [by destruct H | done].
Qed.

Lemma has_addAll (resolve : string -> string) (net : string -> Fetch)
    (name name' : string) (urls : list string) (s : CacheStorage) :
  caches_has name' (SW.cache_addAll resolve net name urls s).2 = caches_has name' s.
Proof.
  destruct (all_ok resolve net urls) eqn:E.
  - rewrite addAll_goes_through by done. apply has_put_all.
  - by rewrite addAll_given_up.
Qed.

(** The storage an install leaves, however its promise settles. *)
Lemma install_store (resolve : string -> string) (net : string -> Fetch) (s : CacheStorage) :
  caches_after (SW.install resolve net s) =
  (SW.cache_addAll resolve net SW.OFFLINE_CACHE ["/offline.html"]
     (SW.cache_addAll resolve net SW.CACHE_NAME SW.PRECACHE_ASSETS
        (caches_open SW.OFFLINE_CACHE (caches_open SW.CACHE_NAME s))).2).2.
Proof.
  unfold SW.install.
  destruct (SW.cache_addAll resolve net SW.CACHE_NAME _ _) as [core s1].
  destruct (SW.cache_addAll resolve net SW.OFFLINE_CACHE _ _) as [offline s2].
  simpl. by destruct (SW.all2 core offline).
Qed.

Lemma install_match (resolve : string -> string) (net : string -> Fetch)
    (name key : string) (s : CacheStorage) :
  cache_match name key (caches_after (SW.install resolve net s)) =
  if decide (all_ok resolve net ["/offline.html"] = true /\
             name = SW.OFFLINE_CACHE /\ key ∈ map resolve ["/offline.html"])
  then response_of (net key)
  else if decide (all_ok resolve net SW.PRECACHE_ASSETS = true /\
                  name = SW.CACHE_NAME /\ key ∈ map resolve SW.PRECACHE_ASSETS)
  then response_of (net key)
  else cache_match name key s.
Proof.
  rewrite install_store.
  rewrite addAll_match by (rewrite has_addAll; apply Storage.has_open).
  rewrite addAll_match by apply has_open_other, Storage.has_open.
  by rewrite !Storage.match_open.
Qed.

Lemma manifest_ok (resolve : string -> string) (net : string -> Fetch) (u : string) :
  all_ok resolve net SW.PRECACHE_ASSETS = true ->
  In u SW.PRECACHE_ASSETS ->
  exists t r, net (resolve u) = Resolves t r /\ ok r = true.
Proof.
  intros Hall Hu. unfold all_ok in Hall. apply andb_prop in Hall as [Hall _].
  rewrite forallb_forall in Hall.
  destruct (storable_accepted _ _ (Hall u Hu)) as (t & r & H & Hok & _). eauto.
Qed.

Lemma manifest_has (resolve : string -> string) (u : string) :
  In u SW.PRECACHE_ASSETS -> resolve u ∈ map resolve SW.PRECACHE_ASSETS.
Proof. intros Hu. apply list_elem_of_In, in_map, Hu. Qed.

Lemma install_entry (resolve : string -> string) (net : string -> Fetch)
    (s : CacheStorage) (u : string) :
  all_ok resolve net SW.PRECACHE_ASSETS = true ->
  In u SW.PRECACHE_ASSETS ->
  exists r, response_of (net (resolve u)) = Some r /\ ok r = true /\
    cache_match SW.CACHE_NAME (resolve u) (caches_after (SW.install resolve net s)) = Some r.
Proof.
  intros Hall Hu. destruct (manifest_ok resolve net _ Hall Hu) as (t & r & Hn & Hok).
  exists r. rewrite Hn. split; [done|]. split; [done|].
  rewrite install_match. case_decide as H1.
  - destruct H1 as (_ & H1 & _). by destruct names_differ.
  - case_decide as H2; [by rewrite Hn|].
    destruct H2. split; [done|]. split; [done|]. by apply manifest_has.
Qed.

(** When every URL of the manifest, resolved to an http(s) URL, is
    fetched with a status in [200,299] that the cache accepts (any but
    206, no [Vary: *]), the install succeeds, the current namespace holds the
    network's response for each of them, the offline namespace holds the
    offline page, and no entry under another URL has changed. *)
Theorem install_precaches (resolve : string -> string) (net : string -> Fetch)
    (s : CacheStorage) :
  all_ok resolve net SW.PRECACHE_ASSETS = true ->
  let out := SW.install resolve net s in
  result out = Returns tt /\
  (forall u, In u SW.PRECACHE_ASSETS ->
     exists r, response_of (net (resolve u)) = Some r /\ ok r = true /\
       cache_match SW.CACHE_NAME (resolve u) (caches_after out) = Some r) /\
  cache_match SW.OFFLINE_CACHE (resolve "/offline.html") (caches_after out)
    = response_of (net (resolve "/offline.html")) /\
  (forall name key, key ∉ map resolve SW.PRECACHE_ASSETS ->
     cache_match name key (caches_after out) = cache_match name key s).
Proof.
  intros Hall.
  assert (In "/offline.html" SW.PRECACHE_ASSETS) as Hoff by (simpl; tauto).
  assert (all_ok resolve net ["/offline.html"] = true) as Hall'.
  { pose proof Hall as Hall0. unfold all_ok in Hall0.
    apply andb_prop in Hall0 as [Hall0 _]. rewrite forallb_forall in Hall0.
    unfold all_ok. simpl. rewrite (Hall0 _ Hoff). simpl.
    reflexivity. }
  cbv zeta. split; [|split; [|split]].
  - unfold SW.install. rewrite !addAll_goes_through by done. reflexivity.
  - intros u Hu. by apply install_entry.
  - rewrite install_match. case_decide as H1; [done|].
    destruct H1. split; [done|]. split; [done|]. apply list_elem_of_here.
  - intros name key Hkey. rewrite install_match. case_decide as H1.
    + destruct H1 as (_ & _ & H1). destruct Hkey.
      apply list_elem_of_singleton in H1. subst key. by apply manifest_has.
    + case_decide as H2; [|done]. by destruct H2 as (_ & _ & H2).
Qed.

Lemma install_precaches_witness :
  all_ok Sample.resolve (Sample.all_but "/nothing") SW.PRECACHE_ASSETS = true /\
  result (SW.install Sample.resolve (Sample.all_but "/nothing") Sample.two_namespaces)
    = Returns tt /\
  cache_match SW.OFFLINE_CACHE (Sample.resolve "/offline.html")
    (caches_after (SW.install Sample.resolve (Sample.all_but "/nothing") Sample.two_namespaces))
  = Some (Sample.respond 200 (Sample.resolve "/offline.html")).
Proof.
  split; [reflexivity|].
  pose proof (install_precaches Sample.resolve (Sample.all_but "/nothing")
                Sample.two_namespaces eq_refl) as H.
  cbv zeta in H. destruct H as (Hres & _ & Hoff & _).
  split; [exact Hres|]. rewrite Hoff. reflexivity.
Defined.

(** Running install again against a network that answers every URL as
    before changes no cache entry, whether the runs succeed or not. *)
Theorem install_idempotent (resolve : string -> string) (net : string -> Fetch)
    (s : CacheStorage) (name key : string) :
  cache_match name key
    (caches_after (SW.install resolve net (caches_after (SW.install resolve net s))))
  = cache_match name key (caches_after (SW.install resolve net s)).
Proof.
  rewrite (install_match resolve net name key (caches_after _)).
  rewrite install_match. repeat case_decide; done.
Qed.





(** ** activate, again and after install *)

Lemma activate_fold_kept (names : list string) (acc : CacheStorage * list Effect) :
  Forall (fun n => n = SW.CACHE_NAME \/ n = SW.OFFLINE_CACHE) names ->
  foldl SW.activate_one acc names = acc.
Proof.
  intros H. revert acc. induction H as [|n names Hn H IH]; intros acc; simpl; [done|].
  rewrite <- (IH acc) at 2. f_equal. unfold SW.activate_one.
  destruct Hn as [->| ->].
  - by rewrite (bool_decide_eq_false_2 (SW.CACHE_NAME <> SW.CACHE_NAME)) by auto.
  - rewrite (bool_decide_eq_false_2 (SW.OFFLINE_CACHE <> SW.OFFLINE_CACHE)) by auto.
    by rewrite andb_false_r.
Qed.

Lemma activate_keys (s : CacheStorage) :
  Forall (fun n => n = SW.CACHE_NAME \/ n = SW.OFFLINE_CACHE)
    (caches_keys (caches_after (SW.activate s))).
Proof.
  unfold SW.activate.
  pose proof (fun n => activate_fold_keys (caches_keys s) s [] n) as H.
  destruct (foldl SW.activate_one (s, []) (caches_keys s)) as [s' d]. simpl in *.
  apply Forall_forall. intros n Hn. destruct (H n Hn) as [Hs Hk]. auto.
Qed.

(** Activating a second time deletes nothing and leaves the storage as
    the first activation left it. *)
Theorem activate_idempotent (s : CacheStorage) :
  let once := caches_after (SW.activate s) in
  caches_after (SW.activate once) = once /\
  deleted (effects (SW.activate once)) = [].
Proof.
  intros once. pose proof (activate_keys s) as H. fold once in H.
  clearbody once. unfold SW.activate.
  rewrite (activate_fold_kept _ (once, []) H). by simpl.
Qed.

(** Activation evicts nothing of what an install has just stored: when
    the cache stored every URL of the manifest, each is still answered
    from the current namespace afterwards. *)
Theorem install_then_activate (resolve : string -> string) (net : string -> Fetch)
    (s : CacheStorage) (u : string) :
  all_ok resolve net SW.PRECACHE_ASSETS = true ->
  In u SW.PRECACHE_ASSETS ->
  exists r,
    response_of (net (resolve u)) = Some r /\
    cache_match SW.CACHE_NAME (resolve u)
      (caches_after (SW.activate (caches_after (SW.install resolve net s)))) = Some r.
Proof.
  intros Hall Hu.
  destruct (install_entry resolve net s u Hall Hu) as (r & Hr & _ & Hm).
  exists r. split; [done|]. rewrite activate_keeps by auto. exact Hm.
Qed.

Lemma install_then_activate_witness :
  all_ok Sample.resolve (Sample.all_but "/nothing") SW.PRECACHE_ASSETS = true /\
  In "/index.html" SW.PRECACHE_ASSETS /\
  exists r,
    response_of (Sample.all_but "/nothing" (Sample.resolve "/index.html")) = Some r /\
    cache_match SW.CACHE_NAME (Sample.resolve "/index.html")
      (caches_after (SW.activate (caches_after
         (SW.install Sample.resolve (Sample.all_but "/nothing") Sample.two_namespaces))))
    = Some r.
Proof.
  split; [reflexivity|]. split; [simpl; tauto|].
  apply (install_then_activate Sample.resolve (Sample.all_but "/nothing")
           Sample.two_namespaces "/index.html"); [reflexivity | simpl; tauto].
Defined.

(** ** message: UPDATE_ASSETS and the replies *)

Lemma loop_replies (resolve : string -> string) (net : string -> Fetch)
    (urls results : list Js.Value) (s : CacheStorage) (sofar : list Effect) :
  replies (effects (SW.updateAssets_loop resolve net urls results s sofar)) = replies sofar.
Proof.
  revert results s sofar. induction urls as [|u urls IH]; intros results s sofar; simpl; [done|].
  destruct (net _) as [t r|t e|]; [destruct (ok r); [destruct (cache_put _ _ _ _ _)|]| |];
    simpl; rewrite ?IH, ?replies_app; simpl; by rewrite ?app_nil_r.
Qed.

Lemma loop_reported (resolve : string -> string) (net : string -> Fetch)
    (urls results : list Js.Value) (s : CacheStorage) (sofar : list Effect) :
  forallb (fun u => negb (SW.fetch_pending (net (resolve (Js.ToString u))))) urls = true ->
  exists entries,
    result (SW.updateAssets_loop resolve net urls results s sofar)
    = Returns (Js.Arr (results ++ entries)) /\
    Forall2 (reported resolve net) urls entries.
Proof.
  revert results s sofar. induction urls as [|u urls IH]; intros results s sofar H; simpl in *.
  - exists []. by rewrite app_nil_r.
  - apply andb_prop in H as [Hu H]. unfold cache_put.
    destruct (net (resolve (Js.ToString u))) as [t r|t e|] eqn:En; [|..|done].
    + destruct (ok r) eqn:Hok; [destruct (put_refusal _ _ r) as [err|] eqn:Hp|].
      * destruct (IH (results ++ [SW.failed u (Js.err_message err)]) s
                     (sofar ++ [EFetch (resolve (Js.ToString u))]) H) as (entries & Hres & Hall).
        exists (SW.failed u (Js.err_message err) :: entries). rewrite Hres, <- app_assoc.
        split; [done|]. constructor; [|done].
        unfold reported. rewrite En, Hok, Hp. eauto.
      * destruct (IH (results ++ [SW.updated u])
                     (cache_write SW.CACHE_NAME (resolve (Js.ToString u)) r s)
                     (sofar ++ [EFetch (resolve (Js.ToString u))]) H) as (entries & Hres & Hall).
        exists (SW.updated u :: entries). rewrite Hres, <- app_assoc.
        split; [done|]. constructor; [|done].
        unfold reported. by rewrite En, Hok, Hp.
      * destruct (IH (results ++ [SW.failed u "Network error"]) s
                     (sofar ++ [EFetch (resolve (Js.ToString u))]) H) as (entries & Hres & Hall).
        exists (SW.failed u "Network error" :: entries). rewrite Hres, <- app_assoc.
        split; [done|]. constructor; [|done].
        unfold reported. by rewrite En, Hok.
    + destruct (IH (results ++ [SW.failed u (Js.err_message e)]) s
                   (sofar ++ [EFetch (resolve (Js.ToString u))]) H) as (entries & Hres & Hall).
      exists (SW.failed u (Js.err_message e) :: entries). rewrite Hres, <- app_assoc.
      split; [done|]. constructor; [|done].
      unfold reported. by rewrite En.
Qed.

Lemma loop_keeps (resolve : string -> string) (net : string -> Fetch)
    (urls results : list Js.Value) (s : CacheStorage) (sofar : list Effect)
    (name key : string) :
  is_Some (cache_match name key s) ->
  is_Some (cache_match name key
             (caches_after (SW.updateAssets_loop resolve net urls results s sofar))).
Proof.
  revert results s sofar. induction urls as [|u urls IH]; intros results s sofar H; simpl; [done|].
  unfold cache_put.
  destruct (net _) as [t r|t e|]; [destruct (ok r); [destruct (put_refusal _ _ r)|]| |];
    try done; apply IH; try done.
  by apply put_keeps.
Qed.

(** A URL for which the cache stored nothing changes no entry. *)
Lemma loop_failed_frame (resolve : string -> string) (net : string -> Fetch)
    (urls results : list Js.Value) (s : CacheStorage) (sofar : list Effect) :
  forallb (fun u => negb (storable (resolve (Js.ToString u)) (net (resolve (Js.ToString u)))))
    urls = true ->
  caches_after (SW.updateAssets_loop resolve net urls results s sofar) = s.
Proof.
  revert results s sofar. induction urls as [|u urls IH]; intros results s sofar H; simpl in *;
    [done|].
  apply andb_prop in H as [Hu H]. unfold cache_put.
  destruct (net _) as [t r|t e|]; simpl in *;
    [destruct (ok r); [destruct (put_refusal _ _ r)|]| |]; try done; by apply IH.
Qed.

(** An UPDATE_ASSETS message with a port and an array of URLs whose
    fetches all settle gets one reply: an array with one entry per URL,
    in the order of the request, [updated] for a URL whose response the
    cache stored (status in [200,299], and nothing for the cache to
    refuse) and [failed], with the reason, for any other. A failure does
    not end the run, and a run that stored nothing changes no cache
    entry. *)
Theorem update_assets_report (resolve : string -> string) (net : string -> Fetch)
    (data : Js.Value) (items : list Js.Value) (p : nat) (rest : list nat)
    (s : CacheStorage) :
  Js.get data "type" = Js.Val (Js.Str "UPDATE_ASSETS") ->
  Js.get data "urls" = Js.Val (Js.Arr items) ->
  Js.safe (Js.Arr items) = true ->
  forallb (fun u => negb (SW.fetch_pending (net (resolve (Js.ToString u))))) items = true ->
  let out := SW.on_message resolve net data (p :: rest) s in
  (exists entries,
     replies (effects out) = [(p, Js.Arr entries)] /\
     Forall2 (reported resolve net) items entries) /\
  (forallb (fun u => negb (storable (resolve (Js.ToString u)) (net (resolve (Js.ToString u)))))
     items = true ->
   forall name key, cache_match name key (caches_after out) = cache_match name key s).
Proof.
  intros Htype Hurls _ Hsettle. unfold SW.on_message. rewrite Htype, Hurls. simpl.
  unfold SW.updateAssets. simpl.
  destruct (loop_reported resolve net items [] (caches_open SW.CACHE_NAME s) [] Hsettle)
    as (entries & Hres & Hall).
  rewrite Hres. simpl. split.
  - exists entries. split; [|done]. rewrite replies_app, loop_replies. reflexivity.
  - intros Hfail name key. rewrite loop_failed_frame by done. apply Storage.match_open.
Qed.

Lemma update_assets_report_witness :
  Js.safe (Js.Arr [Js.Str "/a.css"; Js.Str "/b.css"; Js.Str "/c.css"]) = true /\
  exists entries,
    replies (effects (SW.on_message Sample.resolve (Sample.all_but "/b.css")
      (Js.Obj [("type", Js.Str "UPDATE_ASSETS");
               ("urls", Js.Arr [Js.Str "/a.css"; Js.Str "/b.css"; Js.Str "/c.css"])])
      [3%nat] []))
    = [(3%nat, Js.Arr entries)] /\
    Forall2 (reported Sample.resolve (Sample.all_but "/b.css"))
      [Js.Str "/a.css"; Js.Str "/b.css"; Js.Str "/c.css"] entries.
Proof.
  split; [reflexivity|].
  pose proof (update_assets_report Sample.resolve (Sample.all_but "/b.css")
    (Js.Obj [("type", Js.Str "UPDATE_ASSETS");
             ("urls", Js.Arr [Js.Str "/a.css"; Js.Str "/b.css"; Js.Str "/c.css"])])
    [Js.Str "/a.css"; Js.Str "/b.css"; Js.Str "/c.css"] 3%nat [] []
    eq_refl eq_refl eq_refl eq_refl) as H.
  cbv zeta in H. exact (proj1 H).
Defined.

(** The reply for three URLs of which the second answers 404. *)
Example update_assets_sample :
  replies (effects (SW.on_message Sample.resolve (Sample.all_but "/b.css")
    (Js.Obj [("type", Js.Str "UPDATE_ASSETS");
             ("urls", Js.Arr [Js.Str "/a.css"; Js.Str "/b.css"; Js.Str "/c.css"])])
    [3%nat] []))
  = [(3%nat, Js.Arr [SW.updated (Js.Str "/a.css");
                     SW.failed (Js.Str "/b.css") "Network error";
                     SW.updated (Js.Str "/c.css")])].
Proof. vm_compute. reflexivity. Qed.

(** An UPDATE_ASSETS message whose [urls] is not something to iterate
    over (missing, null, a number, an object) gets no reply: the
    TypeError rejects a promise nobody handles, and no cache entry
    changes. *)
Theorem update_assets_not_iterable (resolve : string -> string) (net : string -> Fetch)
    (data urls : Js.Value) (ports : list nat) (e : Js.Error) (s : CacheStorage) :
  Js.get data "type" = Js.Val (Js.Str "UPDATE_ASSETS") ->
  Js.get data "urls" = Js.Val urls ->
  Js.iterate "urls" urls = Js.Throw e ->
  let out := SW.on_message resolve net data ports s in
  replies (effects out) = [] /\
  last (effects out) = Some (EUnhandledRejection e) /\
  forall name key, cache_match name key (caches_after out) = cache_match name key s.
Proof.
  intros Htype Hurls Hiter. unfold SW.on_message. rewrite Htype, Hurls. simpl.
  unfold SW.updateAssets. rewrite Hiter. simpl.
  repeat split. intros. apply Storage.match_open.
Qed.

Lemma update_assets_not_iterable_witness :
  Js.iterate "urls" Js.Undefined = Js.Throw (Js.TypeError "urls is not iterable") /\
  replies (effects (SW.on_message Sample.resolve Sample.offline
                      (Js.Obj [("type", Js.Str "UPDATE_ASSETS")]) [3%nat] [])) = [].
Proof.
  split; [reflexivity|].
  pose proof (update_assets_not_iterable Sample.resolve Sample.offline
                (Js.Obj [("type", Js.Str "UPDATE_ASSETS")]) Js.Undefined [3%nat]
                (Js.TypeError "urls is not iterable") [] eq_refl eq_refl eq_refl) as H.
  cbv zeta in H. exact (proj1 H).
Defined.

Lemma replies_reply_later (ports : list nat) (msg : Js.Value) :
  (length (replies [SW.reply_later ports msg]) <= 1)%nat.
Proof. destruct ports; simpl; lia. Qed.

(** Whatever the message, the listener posts at most one message on the
    port. *)
Theorem message_at_most_one_reply (resolve : string -> string) (net : string -> Fetch)
    (data : Js.Value) (ports : list nat) (s : CacheStorage) :
  (length (replies (effects (SW.on_message resolve net data ports s))) <= 1)%nat.
Proof.
  unfold SW.on_message.
  destruct (Js.get data "type") as [type|e]; [|simpl; lia].
  destruct (Js.is_string type "SKIP_WAITING"); [simpl; lia|].
  destruct (Js.is_string type "GET_CACHE_INFO").
  { destruct ports; simpl; lia. }
  destruct (Js.is_string type "CLEAR_CACHE").
  { unfold SW.clearCache. simpl.
    rewrite !replies_app, replies_map_delete. simpl. apply replies_reply_later. }
  destruct (Js.is_string type "UPDATE_ASSETS"); [|simpl; lia].
  destruct (Js.get data "urls") as [urls|e]; [|simpl; lia].
  assert (replies (effects (SW.updateAssets resolve net urls s)) = []) as Hnone.
  { unfold SW.updateAssets. destruct (Js.iterate "urls" urls); [|done].
    apply loop_replies. }
  destruct (result (SW.updateAssets resolve net urls s)); simpl;
    rewrite ?replies_app, Hnone; simpl; [apply replies_reply_later | lia | lia].
Qed.

(** Only CLEAR_CACHE removes anything: after any other message every
    entry the storage had is still there (UPDATE_ASSETS may have replaced
    its response). *)
Theorem message_keeps_entries (resolve : string -> string) (net : string -> Fetch)
    (data : Js.Value) (ports : list nat) (s : CacheStorage) (name key : string) :
  Js.get data "type" <> Js.Val (Js.Str "CLEAR_CACHE") ->
  is_Some (cache_match name key s) ->
  is_Some (cache_match name key (caches_after (SW.on_message resolve net data ports s))).
Proof.
  intros Htype Hs. unfold SW.on_message.
  destruct (Js.get data "type") as [type|e]; [|done].
  destruct (Js.is_string type "SKIP_WAITING"); [done|].
  destruct (Js.is_string type "GET_CACHE_INFO").
  { by destruct (SW.reply ports _). }
  destruct (Js.is_string type "CLEAR_CACHE") eqn:E.
  { destruct type; simpl in E; try done. apply String.eqb_eq in E. by subst. }
  destruct (Js.is_string type "UPDATE_ASSETS"); [|done].
  destruct (Js.get data "urls") as [urls|e]; [|done].
  assert (is_Some (cache_match name key (caches_after (SW.updateAssets resolve net urls s))))
    as Hkept.
  { unfold SW.updateAssets. destruct (Js.iterate "urls" urls); simpl.
    - apply loop_keeps. by rewrite Storage.match_open.
    - by rewrite Storage.match_open. }
  by destruct (result (SW.updateAssets resolve net urls s)).
Qed.

Lemma message_keeps_entries_witness :
  Js.get (Js.Obj [("type", Js.Str "UPDATE_ASSETS"); ("urls", Js.Arr [Js.Str "/"])]) "type"
    <> Js.Val (Js.Str "CLEAR_CACHE") /\
  is_Some (cache_match SW.OFFLINE_CACHE (Sample.resolve "/offline.html") Sample.two_namespaces) /\
  is_Some (cache_match SW.OFFLINE_CACHE (Sample.resolve "/offline.html")
             (caches_after (SW.on_message Sample.resolve (Sample.all_but "/nothing")
                (Js.Obj [("type", Js.Str "UPDATE_ASSETS"); ("urls", Js.Arr [Js.Str "/"])])
                [] Sample.two_namespaces))).
Proof.
  split; [discriminate|]. split; [by eexists|].
  apply message_keeps_entries; [discriminate | by eexists].
Defined.

(** CLEAR_CACHE takes the offline page with it: with or without a port
    on the message, a navigation that then finds the network down is
    answered with undefined, and an API request with the 503 response. *)
Theorem clear_then_offline (resolve : string -> string) (net : string -> Fetch)
    (data : Js.Value) (ports : list nat) (s : CacheStorage)
    (now : string) (request : Request) (t : N) (e : Js.Error) :
  Js.get data "type" = Js.Val (Js.Str "CLEAR_CACHE") ->
  let s' := caches_after (SW.on_message resolve net data ports s) in
  result (SW.handleHtmlRequest resolve request (Rejects t e) s') = Returns None /\
  result (SW.handleApiRequest now request (Rejects t e) s')
    = Returns (Some (SW.offlineApiResponse now)).
Proof.
  intros Htype. unfold SW.on_message. rewrite Htype. simpl.
  pose proof (clearCache_empties s) as Hempty.
  unfold SW.clearCache in *. simpl in *. rewrite Hempty.
  split; [reflexivity|].
  unfold SW.handleApiRequest, SW.tryNetwork, SW.race. rewrite Storage.match_open. simpl.
  by destruct (t <=? SW.NETWORK_TIMEOUT)%N.
Qed.

Lemma clear_then_offline_witness :
  Js.get (Js.Obj [("type", Js.Str "CLEAR_CACHE")]) "type" = Js.Val (Js.Str "CLEAR_CACHE") /\
  result (SW.handleHtmlRequest Sample.resolve Sample.page
            (Rejects 5 (Js.TypeError "Failed to fetch"))
            (caches_after (SW.on_message Sample.resolve Sample.offline
                             (Js.Obj [("type", Js.Str "CLEAR_CACHE")]) []
                             Sample.two_namespaces)))
  = Returns None.
Proof.
  split; [reflexivity|].
  pose proof (clear_then_offline Sample.resolve Sample.offline
                (Js.Obj [("type", Js.Str "CLEAR_CACHE")]) [] Sample.two_namespaces
                Sample.now Sample.page 5 (Js.TypeError "Failed to fetch") eq_refl) as H.
  cbv zeta in H. exact (proj1 H).
Defined.

(** ** periodicsync *)

(** [updateContent] never rejects, and unless the fetch resolves with a
    body that parses it changes nothing in the storage and notifies no
    client. *)
Theorem update_content_failure (resolve : string -> string)
    (json : Response -> Js.Eval Js.Value) (net : Fetch) (s : CacheStorage) :
  (forall t r, net = Resolves t r -> exists e, json r = Js.Throw e) ->
  let out := SW.updateContent resolve json net s in
  (result out = Returns tt \/ result out = Pending) /\
  caches_after out = s /\
  broadcasts (effects out) = [].
Proof.
  intros H. unfold SW.updateContent. destruct net as [t r|t e|]; simpl; auto.
  destruct (H t r eq_refl) as [e ->]. simpl. auto.
Qed.

Lemma update_content_failure_witness :
  (forall t r, Rejects 5 (Js.TypeError "Failed to fetch") = Resolves t r ->
     exists e, Sample.seven r = Js.Throw e) /\
  caches_after (SW.updateContent Sample.resolve Sample.seven
                  (Rejects 5 (Js.TypeError "Failed to fetch")) Sample.two_namespaces)
  = Sample.two_namespaces.
Proof.
  split; [discriminate|].
  pose proof (update_content_failure Sample.resolve Sample.seven
                (Rejects 5 (Js.TypeError "Failed to fetch")) Sample.two_namespaces) as H.
  cbv zeta in H. destruct H as (_ & Hs & _); [discriminate | exact Hs].
Defined.

Lemma text_accepted (key text : string) :
  http_url key = true -> put_refusal "GET" key (SW.textResponse text) = None.
Proof. intros H. unfold put_refusal. rewrite H. reflexivity. Qed.

(** [updateContent] does not look at the status: whatever response
    brings a body that parses (to a value whose numbers are integers a
    double holds exactly), the content is stored under
    /api/latest-content as a fresh 200 response, every client is told,
    and an API request for that URL that later finds the network down
    or too slow is answered with the stored content. *)
Theorem update_content_any_status (resolve : string -> string)
    (json : Response -> Js.Eval Js.Value) (t : N) (r : Response) (content : Js.Value)
    (s : CacheStorage) (now : string) (request : Request) (net : Fetch) :
  json r = Js.Val content ->
  Js.safe content = true ->
  http_url (resolve "/api/latest-content") = true ->
  url request = resolve "/api/latest-content" ->
  network_fails net ->
  let out := SW.updateContent resolve json (Resolves t r) s in
  let entry := SW.textResponse (default "" (Js.JSON_stringify content)) in
  result out = Returns tt /\
  cache_match SW.CACHE_NAME (resolve "/api/latest-content") (caches_after out) = Some entry /\
  broadcasts (effects out)
    = [Js.Obj [("type", Js.Str "CONTENT_UPDATED"); ("data", content)]] /\
  result (SW.handleApiRequest now request net (caches_after out)) = Returns (Some entry).
Proof.
  intros Hjson _ Hhttp Hurl Hnet. unfold SW.updateContent, cache_put.
  rewrite Hjson, (text_accepted _ _ Hhttp). simpl.
  assert (cache_match SW.CACHE_NAME (resolve "/api/latest-content")
            (cache_write SW.CACHE_NAME (resolve "/api/latest-content")
               (SW.textResponse (default "" (Js.JSON_stringify content)))
               (caches_open SW.CACHE_NAME s))
          = Some (SW.textResponse (default "" (Js.JSON_stringify content)))) as Hput
    by apply Storage.match_put_eq, Storage.has_open.
  repeat split; [exact Hput|].
  destruct (race_lost net Hnet) as [e He].
  destruct (api_catch now request net
              (cache_write SW.CACHE_NAME (resolve "/api/latest-content")
                 (SW.textResponse (default "" (Js.JSON_stringify content)))
                 (caches_open SW.CACHE_NAME s)) e (try_lost _ _ _ _ He)) as [Hres _].
  by rewrite Hres, Hurl, Hput.
Qed.

Lemma update_content_any_status_witness :
  Sample.seven Sample.missing = Js.Val (Js.Num 7) /\
  Js.safe (Js.Num 7) = true /\
  http_url (Sample.resolve "/api/latest-content") = true /\
  url Sample.content = Sample.resolve "/api/latest-content" /\
  network_fails NeverSettles /\
  ok Sample.missing = false /\
  result (SW.handleApiRequest Sample.now Sample.content NeverSettles
            (caches_after (SW.updateContent Sample.resolve Sample.seven
                             (Resolves 20 Sample.missing) [])))
  = Returns (Some (SW.textResponse "7")).
Proof.
  split; [reflexivity|]. split; [reflexivity|]. split; [reflexivity|].
  split; [reflexivity|]. split; [exact I|]. split; [reflexivity|].
  pose proof (update_content_any_status Sample.resolve Sample.seven 20 Sample.missing
                (Js.Num 7) [] Sample.now Sample.content NeverSettles
                eq_refl eq_refl eq_refl eq_refl I) as H.
  cbv zeta in H. destruct H as (_ & _ & _ & H). exact H.
Defined.

(** ** notificationclick *)

Lemma find_client_none (target : Js.Value) (clientList : list SW.WindowClient) (k : nat) :
  SW.find_client target clientList k = None ->
  Forall (fun c => Js.is_string target (SW.client_url c) && SW.has_focus c = false) clientList.
Proof.
  revert k. induction clientList as [|c l IH]; intros k; simpl; [constructor|].
  destruct (Js.is_string target (SW.client_url c) && SW.has_focus c) eqn:E; [done|].
  intros H. constructor; [done | by eapply IH].
Qed.

Lemma find_client_some (target : Js.Value) (clientList : list SW.WindowClient) (k i : nat) :
  SW.find_client target clientList k = Some i ->
  exists j c,
    i = (k + j)%nat /\ clientList !! j = Some c /\
    Js.is_string target (SW.client_url c) && SW.has_focus c = true /\
    forall j' c', (j' < j)%nat -> clientList !! j' = Some c' ->
      Js.is_string target (SW.client_url c') && SW.has_focus c' = false.
Proof.
  revert k. induction clientList as [|c l IH]; intros k; simpl; [done|].
  destruct (Js.is_string target (SW.client_url c) && SW.has_focus c) eqn:E.
  - intros [= <-]. exists 0%nat, c. repeat split; [lia | done | lia].
  - intros H. destruct (IH _ H) as (j & c0 & -> & Hj & Hm & Hfirst).
    exists (S j), c0. repeat split; [lia | done | done |].
    intros [|j'] c' Hlt Hc'; simpl in Hc'; [by injection Hc' as <- |].
    apply (Hfirst j'); [lia | done].
Qed.

(** A click closes the notification and then does one thing: it focuses
    the first client of the list whose URL is the notification's target
    (its [data.url], or [/] without one) and that can be focused, or,
    when no client is, opens the target in a new window. *)
Theorem click_focuses_or_opens (data : Js.Value) (clientList : list SW.WindowClient)
    (openWindow : bool) :
  let target := SW.urlToOpen data in
  let out := SW.on_notificationclick data clientList openWindow in
  (exists i c,
     out = [SW.NotificationClose; SW.ClientFocus i] /\
     clientList !! i = Some c /\
     Js.is_string target (SW.client_url c) && SW.has_focus c = true /\
     forall j c', (j < i)%nat -> clientList !! j = Some c' ->
       Js.is_string target (SW.client_url c') && SW.has_focus c' = false) \/
  (out = SW.NotificationClose :: (if openWindow then [SW.OpenWindow target] else []) /\
   Forall (fun c => Js.is_string target (SW.client_url c) && SW.has_focus c = false)
     clientList).
Proof.
  intros target out. unfold out, SW.on_notificationclick. fold target.
  destruct (SW.find_client target clientList 0) as [i|] eqn:E.
  - left. destruct (find_client_some _ _ _ _ E) as (j & c & -> & Hj & Hm & Hfirst).
    exists j, c. auto.
  - right. split; [done | by eapply find_client_none].
Qed.

Example click_second_client :
  SW.on_notificationclick (Js.Obj [("url", Js.Str "https://zewedjobs.example/jobs")])
    [SW.mkClient "https://zewedjobs.example/" true;
     SW.mkClient "https://zewedjobs.example/jobs" true;
     SW.mkClient "https://zewedjobs.example/jobs" true] true
  = [SW.NotificationClose; SW.ClientFocus 1].
Proof. vm_compute. reflexivity. Qed.

Example click_without_url :
  SW.on_notificationclick Js.Null [SW.mkClient "https://zewedjobs.example/" true] true
  = [SW.NotificationClose; SW.OpenWindow (Js.Str "/")].
Proof. vm_compute. reflexivity. Qed.

(** ** activate: the announcement *)

Lemma broadcasts_app (a b : list Effect) : broadcasts (a ++ b) = broadcasts a ++ broadcasts b.
Proof.
  induction a as [|x a IH]; [done|]. destruct x; simpl; by rewrite ?IH.
Qed.

Lemma activate_fold_quiet (names : list string) (acc : CacheStorage * list Effect) :
  broadcasts (foldl SW.activate_one acc names).2 = broadcasts acc.2.
Proof.
  revert acc. induction names as [|n names IH]; intros acc; simpl; [done|].
  rewrite IH. unfold SW.activate_one.
  destruct (bool_decide _ && bool_decide _); [|done].
  simpl. rewrite broadcasts_app. simpl. apply app_nil_r.
Qed.

(** Whatever the storage held, activation ends with one message to the
    clients, SW_ACTIVATED with the version, sent after the deletions and
    after the claim. *)
Theorem activate_announces_once (s : CacheStorage) :
  let announcement :=
    Js.Obj [("type", Js.Str "SW_ACTIVATED"); ("version", Js.Str SW.APP_VERSION)] in
  broadcasts (effects (SW.activate s)) = [announcement] /\
  exists before,
    effects (SW.activate s) = before ++ [EBroadcast announcement] /\
    deleted before = deleted (effects (SW.activate s)).
Proof.
  unfold SW.activate.
  pose proof (activate_fold_quiet (caches_keys s) (s, [])) as Hq.
  destruct (foldl SW.activate_one (s, []) (caches_keys s)) as [s' d]. simpl in *.
  split.
  - rewrite broadcasts_app, Hq. reflexivity.
  - exists (ELog "Activating new version" :: EClientsClaim :: d ++ [ELog "Activated and ready"]).
    split.
    + simpl. rewrite <- app_assoc. reflexivity.
    + simpl. rewrite !deleted_app. simpl. by rewrite app_nil_r.
Qed.
